(** * gwtreleaser: artifact resolution and version extraction

    A shallow embedding of [main.go]: the run/artifact selection of [main],
    [extractGeodeFileFromZip], [parseVersionFromGeode] and the parts of the Go
    standard library they call ([strings.HasSuffix], [path/filepath.Base],
    [archive/zip]'s directory test, [encoding/json]'s stream decoder,
    [fmt.Sprintf] without operands).

    Go strings and byte slices are immutable byte sequences; both are
    modelled by [string], a list of 8-bit characters.  A [nil] slice is the
    empty string. *)

From Stdlib Require Import String Ascii List ZArith NArith Bool Lia.
Import ListNotations.

Local Open Scope char_scope.
Local Open Scope string_scope.

(* ------------------------------------------------------------------ *)
(** ** Byte strings *)

Module Bytes.

Definition nil : string := EmptyString.

(** Numeric value of a byte. *)
Definition code (c : ascii) : N := N_of_ascii c.

Definition byte_of (n : N) : ascii := ascii_of_N n.

(** [inRange lo hi c] is [lo <= c && c <= hi] on bytes. *)
Definition inRange (lo hi c : ascii) : bool :=
  ((code lo <=? code c) && (code c <=? code hi))%N.

Definition isEmpty (s : string) : bool :=
  match s with EmptyString => true | String _ _ => false end.

(** [s[i:]] *)
Fixpoint from (i : nat) (s : string) : string :=
  match i, s with
  | O, _ => s
  | S i', String _ r => from i' r
  | S _, EmptyString => EmptyString
  end.

(** [s[:i]] *)
Fixpoint upto (i : nat) (s : string) : string :=
  match i, s with
  | O, _ => EmptyString
  | S i', String c r => String c (upto i' r)
  | S _, EmptyString => EmptyString
  end.

(** [s[i]] for an index in range. *)
Definition byteAt (s : string) (i : nat) : ascii :=
  match String.get i s with Some c => c | None => zero end.

(** The one-byte string. *)
Definition single (c : ascii) : string := String c EmptyString.

(** The double quote, byte 0x22. *)
Definition dquote : ascii := "034".

(** [quoted s] is [s] between two double quotes. *)
Definition quoted (s : string) : string :=
  String dquote (s ++ single dquote).

End Bytes.

(* ------------------------------------------------------------------ *)
(** ** Errors

    Go's [error] values, kept structured: the text of a wrapping
    [fmt.Errorf("...: %w", err)] is its prefix followed by the text of the
    cause. *)

Inductive error : Type :=
| errorString (msg : string)
    (** [errors.New], [fmt.Errorf] without a wrapping verb *)
| wrapError (prefix : string) (cause : error)
    (** [fmt.Errorf(prefix + "%w", cause)] *)
| SyntaxError (offending : option ascii) (context : string)
    (** [*json.SyntaxError]: an invalid character in a context, or with no
        character the unexpected end of the input *)
| UnmarshalTypeError (value : string)
    (** [*json.UnmarshalTypeError], [value] describes the JSON value *)
| EOF
    (** [io.EOF] *)
| ErrUnexpectedEOF
    (** [io.ErrUnexpectedEOF] *)
| foreign (what : string).
    (** an error of a collaborator: archive/zip, os, net/http, go-github *)

(* ------------------------------------------------------------------ *)
(** ** Panics

    A Go function either returns or panics; a panic that nothing recovers
    ends the process. *)

Inductive result (A : Type) : Type :=
| Done (a : A)
| Panic (msg : string).
Arguments Done {A} a.
Arguments Panic {A} msg.

Definition andThen {A B : Type} (m : result A) (k : A -> result B)
  : result B :=
  match m with
  | Done a => k a
  | Panic msg => Panic msg
  end.

(* ------------------------------------------------------------------ *)
(** ** package strings *)

Module strings.

(** [func HasSuffix(s, suffix string) bool]:
    [len(s) >= len(suffix) && s[len(s)-len(suffix):] == suffix] *)
Definition HasSuffix (s suffix : string) : bool :=
  (String.length suffix <=? String.length s)%nat
  && String.eqb (Bytes.from (String.length s - String.length suffix) s) suffix.

End strings.

(* ------------------------------------------------------------------ *)
(** ** package path/filepath

    [filepath.Base] depends on the target operating system through
    [IsPathSeparator], [Separator] and [VolumeName]. *)

Module filepath.

Inductive GOOS : Type := unix | windows.

Definition Separator (os : GOOS) : ascii :=
  match os with unix => "/" | windows => "\" end.

Definition IsPathSeparator (os : GOOS) (c : ascii) : bool :=
  match os with
  | unix => Ascii.eqb c "/"
  | windows => Ascii.eqb c "\" || Ascii.eqb c "/"
  end.

Definition toUpper (c : ascii) : ascii :=
  if Bytes.inRange "a" "z" c
  then Bytes.byte_of (Bytes.code c - 32) else c.

(** [pathHasPrefixFold(s, prefix)] of path_windows.go: [s] begins with
    [prefix], ignoring case and treating all separators alike; a longer
    [s] must continue with a separator. *)
Fixpoint hasPrefixFoldAux (s prefix : string) : bool :=
  match prefix, s with
  | EmptyString, EmptyString => true
  | EmptyString, String c _ => IsPathSeparator windows c
  | String _ _, EmptyString => false
  | String p prefix', String c s' =>
      (if IsPathSeparator windows p
       then IsPathSeparator windows c
       else Ascii.eqb (toUpper p) (toUpper c))
      && hasPrefixFoldAux s' prefix'
  end.

Definition pathHasPrefixFold (s prefix : string) : bool :=
  hasPrefixFoldAux s prefix.

(** [uncLen(path, prefixLen)]: the index of the second separator at or
    after [prefixLen], or [len(path)]. *)
Fixpoint uncLenAux (rest : string) (i count : nat) : nat :=
  match rest with
  | EmptyString => i
  | String c rest' =>
      if IsPathSeparator windows c
      then match count with
           | O => uncLenAux rest' (S i) 1
           | S _ => i
           end
      else uncLenAux rest' (S i) count
  end.

Definition uncLen (path : string) (prefixLen : nat) : nat :=
  if (String.length path <? prefixLen)%nat then String.length path
  else uncLenAux (Bytes.from prefixLen path) prefixLen 0.

(** [cutPath(path)]: the text after the first separator, if there is
    one. *)
Fixpoint cutPathRest (path : string) : option string :=
  match path with
  | EmptyString => None
  | String c r => if IsPathSeparator windows c then Some r else cutPathRest r
  end.

(** [volumeNameLen] of path_windows.go (Go 1.23, the version the
    workflow of the repository builds with); 0 on every other system. *)
Definition volumeNameLen (os : GOOS) (path : string) : nat :=
  match os with
  | unix => 0
  | windows =>
      let n := String.length path in
      if (2 <=? n)%nat && Ascii.eqb (Bytes.byteAt path 1) ":" then 2
      else if (n =? 0)%nat || negb (IsPathSeparator windows (Bytes.byteAt path 0))
      then 0
      else if pathHasPrefixFold path "\\.\UNC" then uncLen path 8
      else if pathHasPrefixFold path "\\."
              || pathHasPrefixFold path "\\?"
              || pathHasPrefixFold path "\??"
      then if (n =? 3)%nat then 3
           else match cutPathRest (Bytes.from 4 path) with
                | None => n
                | Some rest => n - String.length rest - 1
                end
      else if (2 <=? n)%nat && IsPathSeparator windows (Bytes.byteAt path 1)
      then uncLen path 2
      else 0
  end.

(** The loop [for len(path) > 0 && IsPathSeparator(path[len(path)-1])]
    that strips trailing separators; [n] bounds the iterations by the
    length of the path. *)
Fixpoint stripTrailing (os : GOOS) (n : nat) (path : string) : string :=
  match n with
  | O => path
  | S n' =>
      let len := String.length path in
      if (0 <? len)%nat && IsPathSeparator os (Bytes.byteAt path (len - 1))
      then stripTrailing os n' (Bytes.upto (len - 1) path)
      else path
  end.

(** The loop [i := len(path) - 1; for i >= 0 && !IsPathSeparator(path[i])
    { i-- }]: [lastSeparator os path n] scans downwards from index
    [n - 1] and returns the index it stops at, [None] standing for
    [i = -1]. *)
Fixpoint lastSeparator (os : GOOS) (path : string) (n : nat) : option nat :=
  match n with
  | O => None
  | S i =>
      if IsPathSeparator os (Bytes.byteAt path i) then Some i
      else lastSeparator os path i
  end.

(** [func Base(path string) string] *)
Definition Base (os : GOOS) (path : string) : string :=
  if Bytes.isEmpty path then Bytes.single "."
  else
    let path := stripTrailing os (String.length path) path in
    let path := Bytes.from (volumeNameLen os path) path in
    let path :=
      match lastSeparator os path (String.length path) with
      | Some i => Bytes.from (i + 1) path
      | None => path
      end in
    if Bytes.isEmpty path then Bytes.single (Separator os)
    else path.

End filepath.

(* ------------------------------------------------------------------ *)
(** ** package io

    A reader is what it delivers: the bytes read from it, and how the
    stream ends ([None] for a clean end of file, [Some err] for a read
    error, such as the checksum mismatch of an archive entry). *)

Module io.

Record ReadCloser : Type := mkReadCloser {
  delivered : string;
  failure : option error
}.

(** [func ReadAll(r Reader) ([]byte, error)]: the data read and the error
    that stopped the reading, if any. *)
Definition ReadAll (rc : ReadCloser) : string * option error :=
  (delivered rc, failure rc).

End io.

(* ------------------------------------------------------------------ *)
(** ** package archive/zip

    An opened archive is the list [r.File] of its entries in the order of
    the central directory.  Of a file header the program reads [Name] and,
    through [FileInfo().IsDir()], the creator version and the external
    attributes. *)

Module zip.

Record File : Type := mkFile {
  Name : string;
  CreatorVersion : Z;      (* uint16 *)
  ExternalAttrs : Z;       (* uint32 *)
  Open : error + io.ReadCloser   (* the outcome of [f.Open()] *)
}.

Definition creatorFAT : Z := 0.
Definition creatorUnix : Z := 3.
Definition creatorNTFS : Z := 11.
Definition creatorVFAT : Z := 14.
Definition creatorMacOSX : Z := 19.

Definition s_IFMT : Z := 0xf000.
Definition s_IFDIR : Z := 0x4000.
Definition msdosDir : Z := 0x10.

Definition lastByteIs (c : ascii) (s : string) : bool :=
  match String.get (String.length s - 1) s with
  | Some d => Ascii.eqb d c
  | None => false
  end.

(** The [fs.ModeDir] bit of the method [Mode] of a file header: set by
    [unixModeToFileMode] when the Unix file type is [S_IFDIR], by
    [msdosModeToFileMode] when the MS-DOS directory attribute is set, and
    for every name that ends in a slash. *)
Definition ModeDir (f : File) : bool :=
  let creator := Z.shiftr (CreatorVersion f) 8 in
  let fromAttrs :=
    if (creator =? creatorUnix)%Z || (creator =? creatorMacOSX)%Z
    then (Z.land (Z.shiftr (ExternalAttrs f) 16) s_IFMT =? s_IFDIR)%Z
    else if (creator =? creatorNTFS)%Z || (creator =? creatorVFAT)%Z
            || (creator =? creatorFAT)%Z
    then negb (Z.land (ExternalAttrs f) msdosDir =? 0)%Z
    else false in
  fromAttrs
  || ((0 <? String.length (Name f))%nat && lastByteIs "/" (Name f)).

(** [f.FileInfo().IsDir()] *)
Definition IsDir (f : File) : bool := ModeDir f.

End zip.


(* ------------------------------------------------------------------ *)
(** ** package unicode/utf8

    Runes are code points, modelled by [N]. *)

Module utf8.

Definition rune : Type := N.

Definition RuneError : rune := 0xFFFD%N.
Definition RuneSelf : N := 0x80%N.
Definition MaxRune : rune := 0x10FFFF%N.

(** An entry of the table [first]: a one-byte rune, an invalid leading
    byte, or the length of the sequence with the accepted range of its
    second byte. *)
Inductive firstInfo : Type :=
| ascii_byte
| invalid_byte
| lead (size : nat) (lo hi : N).

Definition first (b : N) : firstInfo :=
  (if b <? 0x80 then ascii_byte
   else if b <? 0xC2 then invalid_byte
   else if b <? 0xE0 then lead 2 0x80 0xBF
   else if b =? 0xE0 then lead 3 0xA0 0xBF
   else if b <? 0xED then lead 3 0x80 0xBF
   else if b =? 0xED then lead 3 0x80 0x9F
   else if b <? 0xF0 then lead 3 0x80 0xBF
   else if b =? 0xF0 then lead 4 0x90 0xBF
   else if b <? 0xF4 then lead 4 0x80 0xBF
   else if b =? 0xF4 then lead 4 0x80 0x8F
   else invalid_byte)%N.

Definition continuation (b : N) : bool := ((0x80 <=? b) && (b <=? 0xBF))%N.

Definition low6 (b : N) : N := N.land b 0x3F.

(** [func DecodeRuneInString(s string) (rune, int)] *)
Definition DecodeRuneInString (s : string) : rune * nat :=
  match s with
  | EmptyString => (RuneError, 0)
  | String c0 r0 =>
      let s0 := Bytes.code c0 in
      match first s0 with
      | ascii_byte => (s0, 1)
      | invalid_byte => (RuneError, 1)
      | lead sz lo hi =>
          if (String.length s <? sz)%nat then (RuneError, 1) else
          match r0 with
          | EmptyString => (RuneError, 1)
          | String c1 r1 =>
              let s1 := Bytes.code c1 in
              if ((s1 <? lo) || (hi <? s1))%N then (RuneError, 1)
              else if (sz <=? 2)%nat
              then (N.lor (N.shiftl (N.land s0 0x1F) 6) (low6 s1), 2)
              else
              match r1 with
              | EmptyString => (RuneError, 1)
              | String c2 r2 =>
                  let s2 := Bytes.code c2 in
                  if negb (continuation s2) then (RuneError, 1)
                  else if (sz <=? 3)%nat
                  then (N.lor (N.shiftl (N.land s0 0x0F) 12)
                          (N.lor (N.shiftl (low6 s1) 6) (low6 s2)), 3)
                  else
                  match r2 with
                  | EmptyString => (RuneError, 1)
                  | String c3 _ =>
                      let s3 := Bytes.code c3 in
                      if negb (continuation s3) then (RuneError, 1)
                      else (N.lor (N.shiftl (N.land s0 0x07) 18)
                              (N.lor (N.shiftl (low6 s1) 12)
                                 (N.lor (N.shiftl (low6 s2) 6) (low6 s3))), 4)
                  end
              end
          end
      end
  end.

Definition tx (n : N) : ascii := Bytes.byte_of (N.lor 0x80 (low6 n)).

(** The bytes [AppendRune] appends for the rune [r]. *)
Definition EncodeRune (r : rune) : string :=
  (if r <=? 0x7F then Bytes.single (Bytes.byte_of r)
   else if r <=? 0x7FF
   then String (Bytes.byte_of (N.lor 0xC0 (N.shiftr r 6)))
          (Bytes.single (tx r))
   else
     let r := if (MaxRune <? r) || ((0xD800 <=? r) && (r <=? 0xDFFF))
              then RuneError else r in
     if r <=? 0xFFFF
     then String (Bytes.byte_of (N.lor 0xE0 (N.shiftr r 12)))
            (String (tx (N.shiftr r 6)) (Bytes.single (tx r)))
     else String (Bytes.byte_of (N.lor 0xF0 (N.shiftr r 18)))
            (String (tx (N.shiftr r 12))
               (String (tx (N.shiftr r 6)) (Bytes.single (tx r)))))%N.

End utf8.

(* ------------------------------------------------------------------ *)
(** ** package fmt: [Sprintf] called with a format and no operand

    [doPrintf] with an empty operand list.  No verb can print an operand;
    what is left of a verb is its parsing and the diagnostics written for
    it. *)

Module fmt.

Definition percentBangString : string := "%!".
Definition missingString : string := "(MISSING)".
Definition badIndexString : string := "(BADINDEX)".
Definition noVerbString : string := "%!(NOVERB)".
Definition badWidthString : string := "%!(BADWIDTH)".
Definition badPrecString : string := "%!(BADPREC)".

Definition isDigit (c : ascii) : bool := Bytes.inRange "0" "9" c.

Definition isFlag (c : ascii) : bool :=
  Ascii.eqb c "#" || Ascii.eqb c "0" || Ascii.eqb c "+"
  || Ascii.eqb c "-" || Ascii.eqb c " ".

(** The loop [simpleFormat]: with no operand left the fast path for
    simple verbs is never taken, and the loop ends at the first byte that
    is not a flag. *)
Fixpoint skipFlags (s : string) : string :=
  match s with
  | EmptyString => EmptyString
  | String c r => if isFlag c then skipFlags r else s
  end.

(** [tooLarge(x)]: [x > 1e6] *)
Definition tooLarge (x : N) : bool := (1000000 <? x)%N.

(** [parsenum(s, start, end)] on the text [s[start:end]]: the number read,
    whether a digit was seen, and the text left.  On overflow it answers
    [0, false, end], so nothing is left. *)
Fixpoint parsenumFrom (s : string) (num : N) (isnum : bool)
  : N * bool * string :=
  match s with
  | EmptyString => (num, isnum, EmptyString)
  | String c r =>
      if isDigit c then
        if tooLarge num then (0%N, false, EmptyString)
        else parsenumFrom r (num * 10 + (Bytes.code c - Bytes.code "0"))%N true
      else (num, isnum, s)
  end.

Definition parsenum (s : string) : N * bool * string :=
  parsenumFrom s 0%N false.

(** Splits at the first closing bracket: the text before it and the text
    after it. *)
Fixpoint cutBracket (s : string) : option (string * string) :=
  match s with
  | EmptyString => None
  | String c r =>
      if Ascii.eqb c "]" then Some (EmptyString, r)
      else match cutBracket r with
           | Some (body, rest) => Some (String c body, rest)
           | None => None
           end
  end.

(** [parseArgNumber(format)] for a format [[ ++ r]: the text left after
    the [wid] bytes it consumes, and [ok]. *)
Definition parseArgNumber (r : string) : string * bool :=
  if (String.length r <? 2)%nat then (r, false)
  else match cutBracket r with
       | Some (body, rest) =>
           let '(_, ok, unread) := parsenum body in
           if negb ok || negb (Bytes.isEmpty unread) then (rest, false)
           else (rest, true)
       | None => (r, false)
       end.

(** [p.argNumber(argNum, format, i, 0)]: the text left, [found] and the
    new value of [p.goodArgNum].  With no operand every index is out of
    range. *)
Definition argNumber (s : string) (goodArgNum : bool)
  : string * bool * bool :=
  match s with
  | String "[" r =>
      let '(rest, ok) := parseArgNumber r in (rest, ok, false)
  | _ => (s, false, goodArgNum)
  end.

(** One verb, from the byte after the percent sign: what is written and
    the format left.  A dot starts a precision only when a byte follows it
    ([i+1 < end]); a dot that ends the format is the verb. *)
Definition verb (s0 : string) : string * string :=
  let s1 := skipFlags s0 in
  let '(s2, afterIndex, good) := argNumber s1 true in
  let '(s3, out1, afterIndex, good) :=
    match s2 with
    | String "*" r => (r, badWidthString, false, good)
    | _ =>
        let '(_, widPresent, r) := parsenum s2 in
        (r, EmptyString, afterIndex,
         if afterIndex && widPresent then false else good)
    end in
  let '(s4, out2, afterIndex, good) :=
    match s3 with
    | String "." (String _ _ as r) =>
        let good := if afterIndex then false else good in
        let '(r1, afterIndex, good) := argNumber r good in
        match r1 with
        | String "*" r2 => (r2, badPrecString, false, good)
        | _ =>
            let '(_, _, r2) := parsenum r1 in
            (r2, EmptyString, afterIndex, good)
        end
    | _ => (s3, EmptyString, afterIndex, good)
    end in
  let '(s5, _, good) :=
    if afterIndex then (s4, afterIndex, good) else argNumber s4 good in
  match s5 with
  | EmptyString => (out1 ++ out2 ++ noVerbString, EmptyString)
  | String c _ =>
      let '(v, size) :=
        if (utf8.RuneSelf <=? Bytes.code c)%N
        then utf8.DecodeRuneInString s5
        else (Bytes.code c, 1) in
      let out :=
        if (v =? Bytes.code "%")%N then Bytes.single "%"
        else if negb good
        then percentBangString ++ utf8.EncodeRune v ++ badIndexString
        else percentBangString ++ utf8.EncodeRune v ++ missingString in
      (out1 ++ out2 ++ out, Bytes.from size s5)
  end.

(** The loop [formatLoop]; every round consumes a byte of the format, so
    [fuel] is its length. *)
Fixpoint doPrintf (fuel : nat) (format : string) : string :=
  match fuel with
  | O => EmptyString
  | S fuel' =>
      match format with
      | EmptyString => EmptyString
      | String c rest =>
          if Ascii.eqb c "%" then
            let '(out, rest') := verb rest in
            out ++ doPrintf fuel' rest'
          else String c (doPrintf fuel' rest)
      end
  end.

(** [fmt.Sprintf(format)] *)
Definition Sprintf (format : string) : string :=
  doPrintf (String.length format) format.

(** [fmt.Sprintf(prefix + "%s", operand)] for a constant [prefix] without
    a percent sign and a string operand: the plain verb [%s] writes the
    string as it is. *)
Definition Sprintf_s (prefix operand : string) : string :=
  prefix ++ operand.

End fmt.


(* ------------------------------------------------------------------ *)
(** ** package encoding/json: the scanner (scanner.go)

    The scanner is a state machine fed one byte at a time.  Its [step]
    field, a function pointer in Go, is the name of the state function to
    call next.  [parseState] is the stack of open composite values, the
    innermost first. *)

Module json.

Inductive opcode : Type :=
| scanContinue | scanBeginLiteral | scanBeginObject | scanObjectKey
| scanObjectValue | scanEndObject | scanBeginArray | scanArrayValue
| scanEndArray | scanSkipSpace | scanEnd | scanError.

Definition opcode_eqb (a b : opcode) : bool :=
  match a, b with
  | scanContinue, scanContinue | scanBeginLiteral, scanBeginLiteral
  | scanBeginObject, scanBeginObject | scanObjectKey, scanObjectKey
  | scanObjectValue, scanObjectValue | scanEndObject, scanEndObject
  | scanBeginArray, scanBeginArray | scanArrayValue, scanArrayValue
  | scanEndArray, scanEndArray | scanSkipSpace, scanSkipSpace
  | scanEnd, scanEnd | scanError, scanError => true
  | _, _ => false
  end.

Inductive parse : Type := parseObjectKey | parseObjectValue | parseArrayValue.

Inductive stepFn : Type :=
| stateBeginValueOrEmpty | stateBeginValue | stateBeginStringOrEmpty
| stateBeginString | stateEndValue | stateEndTop
| stateInString | stateInStringEsc | stateInStringEscU
| stateInStringEscU1 | stateInStringEscU12 | stateInStringEscU123
| stateNeg | state1 | state0 | stateDot | stateDot0
| stateE | stateESign | stateE0
| stateT | stateTr | stateTru
| stateF | stateFa | stateFal | stateFals
| stateN | stateNu | stateNul
| stateError.

Record scanner : Type := mkScanner {
  step : stepFn;
  endTop : bool;
  parseState : list parse;
  err : option error
}.

Definition maxNestingDepth : N := 10000.

(** [s.reset()] *)
Definition reset : scanner :=
  mkScanner stateBeginValue false [] None.

Definition setStep (s : scanner) (f : stepFn) : scanner :=
  mkScanner f (endTop s) (parseState s) (err s).

(** [s.error(c, context)] *)
Definition error_at (s : scanner) (c : ascii) (context : string)
  : scanner * opcode :=
  (mkScanner stateError (endTop s) (parseState s)
     (Some (SyntaxError (Some c) context)),
   scanError).

(** [s.pushParseState(c, newParseState, successState)] *)
Definition pushParseState (s : scanner) (c : ascii) (p : parse)
  (successState : opcode) : scanner * opcode :=
  let s' := mkScanner (step s) (endTop s) (p :: parseState s) (err s) in
  if (N.of_nat (List.length (parseState s')) <=? maxNestingDepth)%N
  then (s', successState)
  else error_at s' c "exceeded max depth".

(** [s.popParseState()] *)
Definition popParseState (s : scanner) : scanner :=
  let rest := List.tl (parseState s) in
  match rest with
  | [] => mkScanner stateEndTop true rest (err s)
  | _ :: _ => mkScanner stateEndValue (endTop s) rest (err s)
  end.

Definition isSpace (c : ascii) : bool :=
  Ascii.eqb c " " || Ascii.eqb c "009" || Ascii.eqb c "013"
  || Ascii.eqb c "010".

Definition isDigit (c : ascii) : bool := Bytes.inRange "0" "9" c.

Definition isHex (c : ascii) : bool :=
  Bytes.inRange "0" "9" c || Bytes.inRange "a" "f" c
  || Bytes.inRange "A" "F" c.

(** [stateEndTop]: the byte after the top-level value. *)
Definition doEndTop (s : scanner) (c : ascii) : scanner * opcode :=
  if negb (isSpace c)
  then (fst (error_at s c "after top-level value"), scanEnd)
  else (s, scanEnd).

(** [stateEndValue]: the byte after a value. *)
Definition doEndValue (s : scanner) (c : ascii) : scanner * opcode :=
  match parseState s with
  | [] =>
      doEndTop (mkScanner stateEndTop true (parseState s) (err s)) c
  | ps :: below =>
      if isSpace c then (setStep s stateEndValue, scanSkipSpace)
      else
        match ps with
        | parseObjectKey =>
            if Ascii.eqb c ":"
            then (mkScanner stateBeginValue (endTop s)
                    (parseObjectValue :: below) (err s), scanObjectKey)
            else error_at s c "after object key"
        | parseObjectValue =>
            if Ascii.eqb c ","
            then (mkScanner stateBeginString (endTop s)
                    (parseObjectKey :: below) (err s), scanObjectValue)
            else if Ascii.eqb c "}"
            then (popParseState s, scanEndObject)
            else error_at s c "after object key:value pair"
        | parseArrayValue =>
            if Ascii.eqb c ","
            then (setStep s stateBeginValue, scanArrayValue)
            else if Ascii.eqb c "]"
            then (popParseState s, scanEndArray)
            else error_at s c "after array element"
        end
  end.

(** [stateBeginValue]: the first byte of a value. *)
Definition doBeginValue (s : scanner) (c : ascii) : scanner * opcode :=
  if isSpace c then (s, scanSkipSpace)
  else if Ascii.eqb c "{"
  then pushParseState (setStep s stateBeginStringOrEmpty) c
         parseObjectKey scanBeginObject
  else if Ascii.eqb c "["
  then pushParseState (setStep s stateBeginValueOrEmpty) c
         parseArrayValue scanBeginArray
  else if Ascii.eqb c Bytes.dquote
  then (setStep s stateInString, scanBeginLiteral)
  else if Ascii.eqb c "-" then (setStep s stateNeg, scanBeginLiteral)
  else if Ascii.eqb c "0" then (setStep s state0, scanBeginLiteral)
  else if Ascii.eqb c "t" then (setStep s stateT, scanBeginLiteral)
  else if Ascii.eqb c "f" then (setStep s stateF, scanBeginLiteral)
  else if Ascii.eqb c "n" then (setStep s stateN, scanBeginLiteral)
  else if Bytes.inRange "1" "9" c then (setStep s state1, scanBeginLiteral)
  else error_at s c "looking for beginning of value".

(** [stateBeginString]: the opening quote of an object key. *)
Definition doBeginString (s : scanner) (c : ascii) : scanner * opcode :=
  if isSpace c then (s, scanSkipSpace)
  else if Ascii.eqb c Bytes.dquote
  then (setStep s stateInString, scanBeginLiteral)
  else error_at s c "looking for beginning of object key string".

(** [state0]: after a leading zero, and the tail of [state1]. *)
Definition do0 (s : scanner) (c : ascii) : scanner * opcode :=
  if Ascii.eqb c "." then (setStep s stateDot, scanContinue)
  else if Ascii.eqb c "e" || Ascii.eqb c "E"
  then (setStep s stateE, scanContinue)
  else doEndValue s c.

(** [stateESign]: after the sign of an exponent, and the tail of
    [stateE]. *)
Definition doESign (s : scanner) (c : ascii) : scanner * opcode :=
  if isDigit c then (setStep s stateE0, scanContinue)
  else error_at s c "in exponent of numeric literal".

(** A state of a keyword that expects the byte [want]. *)
Definition expect (s : scanner) (c want : ascii) (next : stepFn)
  (context : string) : scanner * opcode :=
  if Ascii.eqb c want then (setStep s next, scanContinue)
  else error_at s c context.

Definition hexDigit (s : scanner) (c : ascii) (next : stepFn)
  : scanner * opcode :=
  if isHex c then (setStep s next, scanContinue)
  else error_at s c "in \u hexadecimal character escape".

(** [s.step(s, c)] *)
Definition stepWith (s : scanner) (c : ascii) : scanner * opcode :=
  match step s with
  | stateBeginValueOrEmpty =>
      if isSpace c then (s, scanSkipSpace)
      else if Ascii.eqb c "]" then doEndValue s c
      else doBeginValue s c
  | stateBeginValue => doBeginValue s c
  | stateBeginStringOrEmpty =>
      if isSpace c then (s, scanSkipSpace)
      else if Ascii.eqb c "}"
      then doEndValue
             (mkScanner (step s) (endTop s)
                (parseObjectValue :: List.tl (parseState s)) (err s)) c
      else doBeginString s c
  | stateBeginString => doBeginString s c
  | stateEndValue => doEndValue s c
  | stateEndTop => doEndTop s c
  | stateInString =>
      if Ascii.eqb c Bytes.dquote then (setStep s stateEndValue, scanContinue)
      else if Ascii.eqb c "\" then (setStep s stateInStringEsc, scanContinue)
      else if (Bytes.code c <? 0x20)%N then error_at s c "in string literal"
      else (s, scanContinue)
  | stateInStringEsc =>
      if Ascii.eqb c "b" || Ascii.eqb c "f" || Ascii.eqb c "n"
         || Ascii.eqb c "r" || Ascii.eqb c "t" || Ascii.eqb c "\"
         || Ascii.eqb c "/" || Ascii.eqb c Bytes.dquote
      then (setStep s stateInString, scanContinue)
      else if Ascii.eqb c "u" then (setStep s stateInStringEscU, scanContinue)
      else error_at s c "in string escape code"
  | stateInStringEscU => hexDigit s c stateInStringEscU1
  | stateInStringEscU1 => hexDigit s c stateInStringEscU12
  | stateInStringEscU12 => hexDigit s c stateInStringEscU123
  | stateInStringEscU123 => hexDigit s c stateInString
  | stateNeg =>
      if Ascii.eqb c "0" then (setStep s state0, scanContinue)
      else if Bytes.inRange "1" "9" c then (setStep s state1, scanContinue)
      else error_at s c "in numeric literal"
  | state1 =>
      if isDigit c then (setStep s state1, scanContinue) else do0 s c
  | state0 => do0 s c
  | stateDot =>
      if isDigit c then (setStep s stateDot0, scanContinue)
      else error_at s c "after decimal point in numeric literal"
  | stateDot0 =>
      if isDigit c then (s, scanContinue)
      else if Ascii.eqb c "e" || Ascii.eqb c "E"
      then (setStep s stateE, scanContinue)
      else doEndValue s c
  | stateE =>
      if Ascii.eqb c "+" || Ascii.eqb c "-"
      then (setStep s stateESign, scanContinue)
      else doESign s c
  | stateESign => doESign s c
  | stateE0 =>
      if isDigit c then (s, scanContinue) else doEndValue s c
  | stateT => expect s c "r" stateTr "in literal true (expecting 'r')"
  | stateTr => expect s c "u" stateTru "in literal true (expecting 'u')"
  | stateTru => expect s c "e" stateEndValue "in literal true (expecting 'e')"
  | stateF => expect s c "a" stateFa "in literal false (expecting 'a')"
  | stateFa => expect s c "l" stateFal "in literal false (expecting 'l')"
  | stateFal => expect s c "s" stateFals "in literal false (expecting 's')"
  | stateFals => expect s c "e" stateEndValue "in literal false (expecting 'e')"
  | stateN => expect s c "u" stateNu "in literal null (expecting 'u')"
  | stateNu => expect s c "l" stateNul "in literal null (expecting 'l')"
  | stateNul => expect s c "l" stateEndValue "in literal null (expecting 'l')"
  | stateError => (s, scanError)
  end.

(** [s.eof()] *)
Definition eof (s : scanner) : scanner * opcode :=
  match err s with
  | Some _ => (s, scanError)
  | None =>
      if endTop s then (s, scanEnd)
      else
        let s' := fst (stepWith s " ") in
        if endTop s' then (s', scanEnd)
        else
          match err s' with
          | Some _ => (s', scanError)
          | None =>
              (mkScanner (step s') (endTop s') (parseState s')
                 (Some (SyntaxError None "unexpected end of JSON input")),
               scanError)
          end
  end.

(** [checkValid(data, scan)]: the whole of [data] is one JSON value,
    white space around it allowed. *)
Fixpoint checkValidFrom (s : scanner) (data : string) : option error :=
  match data with
  | EmptyString =>
      let '(s', op) := eof s in
      if opcode_eqb op scanError then err s' else None
  | String c rest =>
      let '(s', op) := stepWith s c in
      if opcode_eqb op scanError then err s'
      else checkValidFrom s' rest
  end.

Definition checkValid (data : string) : option error :=
  checkValidFrom reset data.

(** [func Valid(data []byte) bool] *)
Definition Valid (data : string) : bool :=
  match checkValid data with None => true | Some _ => false end.

(* ---------------------------------------------------------------- *)
(** *** String literals (decode.go) *)

Definition hexValue (c : ascii) : option N :=
  (if Bytes.inRange "0" "9" c then Some (Bytes.code c - Bytes.code "0")
   else if Bytes.inRange "a" "f" c then Some (Bytes.code c - Bytes.code "a" + 10)
   else if Bytes.inRange "A" "F" c then Some (Bytes.code c - Bytes.code "A" + 10)
   else None)%N.

(** [getu4(s)]: the rune of a leading [\uXXXX], [None] standing for
    [-1]. *)
Definition getu4 (s : string) : option N :=
  match s with
  | String "\" (String "u" (String a (String b (String c (String d _))))) =>
      match hexValue a, hexValue b, hexValue c, hexValue d with
      | Some x, Some y, Some z, Some w =>
          Some (((x * 16 + y) * 16 + z) * 16 + w)%N
      | _, _, _, _ => None
      end
  | _ => None
  end.

Definition replacementChar : N := 0xFFFD%N.

(** [utf16.IsSurrogate(r)] *)
Definition IsSurrogate (r : N) : bool := ((0xd800 <=? r) && (r <? 0xe000))%N.

(** [utf16.DecodeRune(r1, r2)], [None] standing for a negative [r2]. *)
Definition utf16_DecodeRune (r1 : N) (r2 : option N) : N :=
  match r2 with
  | Some r2 =>
      (if (0xd800 <=? r1) && (r1 <? 0xdc00) && (0xdc00 <=? r2) && (r2 <? 0xe000)
       then N.lor (N.shiftl (r1 - 0xd800) 10) (r2 - 0xdc00) + 0x10000
       else replacementChar)%N
  | None => replacementChar
  end.

(** The first loop of [unquoteBytes]: the length of the longest prefix
    that needs no unquoting. *)
Fixpoint plainPrefix (fuel : nat) (s : string) : nat :=
  match fuel, s with
  | S fuel', String c _ =>
      if Ascii.eqb c "\" || Ascii.eqb c Bytes.dquote
         || (Bytes.code c <? 0x20)%N
      then 0
      else if (Bytes.code c <? utf8.RuneSelf)%N
      then 1 + plainPrefix fuel' (Bytes.from 1 s)
      else
        let '(rr, size) := utf8.DecodeRuneInString s in
        if (rr =? utf8.RuneError)%N && (size =? 1)%nat then 0
        else size + plainPrefix fuel' (Bytes.from size s)
  | _, _ => 0
  end.

(** The second loop of [unquoteBytes]: escapes are replaced, invalid
    UTF-8 is coerced to the replacement character. *)
Fixpoint unquoteFrom (fuel : nat) (s : string) : option string :=
  match fuel, s with
  | _, EmptyString => Some EmptyString
  | O, String _ _ => None
  | S fuel', String c r =>
      if Ascii.eqb c "\" then
        match r with
        | EmptyString => None
        | String e r' =>
            let simple (b : ascii) :=
              option_map (String b) (unquoteFrom fuel' r') in
            if Ascii.eqb e Bytes.dquote || Ascii.eqb e "\"
               || Ascii.eqb e "/" || Ascii.eqb e "'"
            then simple e
            else if Ascii.eqb e "b" then simple "008"%char
            else if Ascii.eqb e "f" then simple "012"%char
            else if Ascii.eqb e "n" then simple "010"%char
            else if Ascii.eqb e "r" then simple "013"%char
            else if Ascii.eqb e "t" then simple "009"%char
            else if Ascii.eqb e "u" then
              match getu4 s with
              | None => None
              | Some rr =>
                  let after := Bytes.from 6 s in
                  if IsSurrogate rr then
                    let dec := utf16_DecodeRune rr (getu4 after) in
                    if negb (dec =? replacementChar)%N
                    then option_map (append (utf8.EncodeRune dec))
                           (unquoteFrom fuel' (Bytes.from 6 after))
                    else option_map (append (utf8.EncodeRune replacementChar))
                           (unquoteFrom fuel' after)
                  else option_map (append (utf8.EncodeRune rr))
                         (unquoteFrom fuel' after)
              end
            else None
        end
      else if Ascii.eqb c Bytes.dquote || (Bytes.code c <? 0x20)%N then None
      else if (Bytes.code c <? utf8.RuneSelf)%N
      then option_map (String c) (unquoteFrom fuel' r)
      else
        let '(rr, size) := utf8.DecodeRuneInString s in
        option_map (append (utf8.EncodeRune rr))
          (unquoteFrom fuel' (Bytes.from size s))
  end.

(** [func unquoteBytes(s []byte) (t []byte, ok bool)] *)
Definition unquoteBytes (s : string) : option string :=
  let n := String.length s in
  if (n <? 2)%nat
     || negb (Ascii.eqb (Bytes.byteAt s 0) Bytes.dquote)
     || negb (Ascii.eqb (Bytes.byteAt s (n - 1)) Bytes.dquote)
  then None
  else
    let s := Bytes.upto (n - 2) (Bytes.from 1 s) in
    let r := plainPrefix (String.length s) s in
    if (r =? String.length s)%nat then Some s
    else option_map (append (Bytes.upto r s))
           (unquoteFrom (String.length s) (Bytes.from r s)).

(* ---------------------------------------------------------------- *)
(** *** Field names (fold.go)

    A key selects the field of [ModJSON] when it is the name [version]
    or when [foldName(key)] is [foldName("version")], which is [VERSION].
    [foldName] maps a rune to the least rune of its case-folding orbit;
    the only runes outside ASCII with an ASCII letter in their orbit are
    U+017F (long s) and U+212A (Kelvin sign). *)

Definition foldRuneASCII (r : N) : option ascii :=
  (if r =? 0x17F then Some "S"%char
   else if r =? 0x212A then Some "K"%char
   else None)%N.

Definition toUpperASCII (c : ascii) : ascii :=
  if Bytes.inRange "a" "z" c
  then Bytes.byte_of (Bytes.code c - 32) else c.

(** [string(foldName(key)) == folded] for a folded name made of ASCII
    bytes. *)
Fixpoint foldNameIs (fuel : nat) (key folded : string) : bool :=
  match fuel, key, folded with
  | _, EmptyString, EmptyString => true
  | S fuel', String c _, String f folded' =>
      if (Bytes.code c <? utf8.RuneSelf)%N
      then Ascii.eqb (toUpperASCII c) f
           && foldNameIs fuel' (Bytes.from 1 key) folded'
      else
        let '(r, n) := utf8.DecodeRuneInString key in
        match foldRuneASCII r with
        | Some b => Ascii.eqb b f && foldNameIs fuel' (Bytes.from n key) folded'
        | None => false
        end
  | _, _, _ => false
  end.

(** The lookup [fields.byExactName], then [fields.byFoldedName], for the
    one field of [ModJSON]. *)
Definition isVersionKey (key : string) : bool :=
  String.eqb key "version"
  || foldNameIs (String.length key) key "VERSION".

(* ---------------------------------------------------------------- *)
(** *** Decoding into [ModJSON] (decode.go) *)

(** [type ModJSON struct { Version string `json:"version"` }] *)
Record ModJSON : Type := mkModJSON { Version : string }.

Definition phasePanicMsg : string :=
  "JSON decoder out of sync - data changing underfoot?".

(** [decodeState]: [unread] is [d.data[d.off:]], [prev] is
    [d.data[d.off-1]], the byte read last. *)
Record decodeState : Type := mkDecodeState {
  prev : ascii;
  unread : string;
  scan : scanner;
  opcode_ : opcode;
  savedError : option error;
  target : ModJSON
}.

(** What a value is decoded into: the struct, its string field, or
    nothing (the zero [reflect.Value] of a key that names no field). *)
Inductive dest : Type := toStruct | toVersion | toNothing.

(** [d.saveError(err)] *)
Definition saveError (d : decodeState) (e : error) : decodeState :=
  match savedError d with
  | Some _ => d
  | None =>
      mkDecodeState (prev d) (unread d) (scan d) (opcode_ d) (Some e)
        (target d)
  end.

Definition moved (d : decodeState) (c : ascii) (rest : string)
  (s : scanner) (op : opcode) : decodeState :=
  mkDecodeState c rest s op (savedError d) (target d).

(** [d.scanNext()] *)
Definition scanNext (d : decodeState) : decodeState :=
  match unread d with
  | String c rest =>
      let '(s, op) := stepWith (scan d) c in moved d c rest s op
  | EmptyString =>
      let '(s, op) := eof (scan d) in moved d (prev d) EmptyString s op
  end.

(** [d.scanWhile(op)] *)
Fixpoint scanWhileFrom (s : scanner) (prev : ascii) (data : string)
  (op : opcode) : ascii * string * scanner * opcode :=
  match data with
  | EmptyString =>
      let '(s', o) := eof s in (prev, EmptyString, s', o)
  | String c rest =>
      let '(s', newOp) := stepWith s c in
      if opcode_eqb newOp op then scanWhileFrom s' c rest op
      else (c, rest, s', newOp)
  end.

Definition scanWhile (d : decodeState) (op : opcode) : decodeState :=
  let '(c, rest, s, o) := scanWhileFrom (scan d) (prev d) (unread d) op in
  moved d c rest s o.

(** [d.skip()]: reads to the end of the composite value just entered.
    Reading past the end of the data is an index out of range. *)
Fixpoint skipFrom (s : scanner) (data : string) (depth : nat)
  : result (ascii * string * scanner * opcode) :=
  match data with
  | EmptyString => Panic "index out of range"
  | String c rest =>
      let '(s', op) := stepWith s c in
      if (List.length (parseState s') <? depth)%nat
      then Done (c, rest, s', op)
      else skipFrom s' rest depth
  end.

Definition skip (d : decodeState) : result decodeState :=
  match skipFrom (scan d) (unread d) (List.length (parseState (scan d))) with
  | Done (c, rest, s, o) => Done (moved d c rest s o)
  | Panic m => Panic m
  end.

(** The string case of [d.rescanLiteral()]: the bytes up to and including
    the closing quote, and the bytes after it. *)
Fixpoint stringTail (data : string) : string * string :=
  match data with
  | EmptyString => (EmptyString, EmptyString)
  | String c rest =>
      if Ascii.eqb c "\" then
        match rest with
        | EmptyString => (Bytes.single c, EmptyString)
        | String e rest' =>
            let '(body, after) := stringTail rest' in
            (String c (String e body), after)
        end
      else if Ascii.eqb c Bytes.dquote then (Bytes.single c, rest)
      else
        let '(body, after) := stringTail rest in (String c body, after)
  end.

Definition isNumberByte (c : ascii) : bool :=
  isDigit c || Ascii.eqb c "." || Ascii.eqb c "e" || Ascii.eqb c "E"
  || Ascii.eqb c "+" || Ascii.eqb c "-".

(** The number case of [d.rescanLiteral()]. *)
Fixpoint numberTail (data : string) : string * string :=
  match data with
  | EmptyString => (EmptyString, EmptyString)
  | String c rest =>
      if isNumberByte c
      then let '(body, after) := numberTail rest in (String c body, after)
      else (EmptyString, data)
  end.

(** [d.rescanLiteral()], together with the literal
    [d.data[start:d.readIndex()]] it delimits.  The data was accepted by
    the scanner of [readValue], so a keyword is complete. *)
Definition rescanLiteral (d : decodeState) : string * decodeState :=
  let c := prev d in
  let '(body, after) :=
    if Ascii.eqb c Bytes.dquote then stringTail (unread d)
    else if isDigit c || Ascii.eqb c "-" then numberTail (unread d)
    else if Ascii.eqb c "t" then (Bytes.upto 3 (unread d), Bytes.from 3 (unread d))
    else if Ascii.eqb c "f" then (Bytes.upto 4 (unread d), Bytes.from 4 (unread d))
    else if Ascii.eqb c "n" then (Bytes.upto 3 (unread d), Bytes.from 3 (unread d))
    else (EmptyString, unread d) in
  let d' :=
    match after with
    | String e rest =>
        let '(s, op) := doEndValue (scan d) e in moved d e rest s op
    | EmptyString => moved d (prev d) EmptyString (scan d) scanEnd
    end in
  (String c body, d').

Definition setVersion (d : decodeState) (v : string) : decodeState :=
  mkDecodeState (prev d) (unread d) (scan d) (opcode_ d) (savedError d)
    (mkModJSON v).

(** [d.literalStore(item, v, false)] *)
Definition literalStore (d : decodeState) (item : string) (v : dest)
  : result decodeState :=
  match item with
  | EmptyString =>
      Done (saveError d (errorString "json: invalid use of ,string struct tag"))
  | String c _ =>
      if Ascii.eqb c "n" then Done d
      else if Ascii.eqb c "t" || Ascii.eqb c "f"
      then Done (saveError d (UnmarshalTypeError "bool"))
      else if Ascii.eqb c Bytes.dquote then
        match unquoteBytes item with
        | None => Panic phasePanicMsg
        | Some s =>
            match v with
            | toVersion => Done (setVersion d s)
            | _ => Done (saveError d (UnmarshalTypeError "string"))
            end
        end
      else if negb (Ascii.eqb c "-") && negb (isDigit c)
      then Panic phasePanicMsg
      else Done (saveError d (UnmarshalTypeError "number"))
  end.

(** [d.value(v)] for a value that is not decoded into the struct: an
    array or an object is a type error for the string field and is
    skipped either way. *)
Definition valueOfMember (d : decodeState) (v : dest) : result decodeState :=
  match opcode_ d with
  | scanBeginArray =>
      let d := match v with
               | toNothing => d
               | _ => saveError d (UnmarshalTypeError "array")
               end in
      andThen (skip d) (fun d => Done (scanNext d))
  | scanBeginObject =>
      let d := match v with
               | toNothing => d
               | _ => saveError d (UnmarshalTypeError "object")
               end in
      andThen (skip d) (fun d => Done (scanNext d))
  | scanBeginLiteral =>
      let '(item, d) := rescanLiteral d in
      match v with
      | toNothing => Done d
      | _ => literalStore d item v
      end
  | _ => Panic phasePanicMsg
  end.

Definition skipSpace (d : decodeState) : decodeState :=
  if opcode_eqb (opcode_ d) scanSkipSpace then scanWhile d scanSkipSpace
  else d.

(** The loop of [d.object(v)] for the struct; every round reads at least
    one byte. *)
Fixpoint objectLoop (fuel : nat) (d : decodeState) : result decodeState :=
  match fuel with
  | O => Panic "index out of range"
  | S fuel' =>
      let d := scanWhile d scanSkipSpace in
      if opcode_eqb (opcode_ d) scanEndObject then Done d
      else if negb (opcode_eqb (opcode_ d) scanBeginLiteral)
      then Panic phasePanicMsg
      else
        let '(item, d) := rescanLiteral d in
        match unquoteBytes item with
        | None => Panic phasePanicMsg
        | Some key =>
            let subv := if isVersionKey key then toVersion else toNothing in
            let d := skipSpace d in
            if negb (opcode_eqb (opcode_ d) scanObjectKey)
            then Panic phasePanicMsg
            else
              let d := scanWhile d scanSkipSpace in
              andThen (valueOfMember d subv) (fun d =>
                let d := skipSpace d in
                if opcode_eqb (opcode_ d) scanEndObject then Done d
                else if negb (opcode_eqb (opcode_ d) scanObjectValue)
                then Panic phasePanicMsg
                else objectLoop fuel' d)
        end
  end.

(** [d.value(rv)] for the pointer to the struct. *)
Definition value (d : decodeState) : result decodeState :=
  match opcode_ d with
  | scanBeginArray =>
      andThen (skip (saveError d (UnmarshalTypeError "array")))
        (fun d => Done (scanNext d))
  | scanBeginObject =>
      andThen (objectLoop (S (String.length (unread d))) d)
        (fun d => Done (scanNext d))
  | scanBeginLiteral =>
      let '(item, d) := rescanLiteral d in
      literalStore d item toStruct
  | _ => Panic phasePanicMsg
  end.

(** [d.unmarshal(&mod)] on the bytes of one value, [mod] being a zero
    [ModJSON]: the struct as it is left, and the error returned. *)
Definition unmarshal (data : string) : result (ModJSON * option error) :=
  let d := mkDecodeState zero data reset scanContinue None
             (mkModJSON EmptyString) in
  let d := scanWhile d scanSkipSpace in
  andThen (value d) (fun d => Done (target d, savedError d)).

(* ---------------------------------------------------------------- *)
(** *** The stream decoder (stream.go) *)

Inductive scanned : Type :=
| complete (n : nat)          (** [return n, nil] *)
| failed (e : error)          (** [return 0, dec.scan.err] *)
| exhausted (s : scanner).    (** the buffer ended inside the value *)

(** The inner loop of [dec.readValue()] over the bytes read so far; [n]
    counts the bytes scanned. *)
Fixpoint scanBuffer (s : scanner) (buf : string) (n : nat) : scanned :=
  match buf with
  | EmptyString => exhausted s
  | String c rest =>
      let '(s', op) := stepWith s c in
      match op with
      | scanEnd => complete n
      | scanEndObject | scanEndArray =>
          let '(s'', op') := doEndValue s' " " in
          if opcode_eqb op' scanEnd then complete (S n)
          else scanBuffer s'' rest (S n)
      | scanError =>
          match err s' with Some e => failed e | None => complete 0 end
      | _ => scanBuffer s' rest (S n)
      end
  end.

(** [nonSpace(b)] *)
Fixpoint nonSpace (b : string) : bool :=
  match b with
  | EmptyString => false
  | String c rest => negb (isSpace c) || nonSpace rest
  end.

(** [dec.readValue()] on a fresh decoder: the length of the first value,
    or the error.  A read error is looked at only after the bytes that
    came with it have been scanned. *)
Definition readValue (rc : io.ReadCloser) : nat + error :=
  match scanBuffer reset (io.delivered rc) 0 with
  | complete n => inl n
  | failed e => inr e
  | exhausted s =>
      match io.failure rc with
      | Some e => inr e
      | None =>
          if opcode_eqb (snd (stepWith s " ")) scanEnd
          then inl (String.length (io.delivered rc))
          else if nonSpace (io.delivered rc) then inr ErrUnexpectedEOF
          else inr EOF
      end
  end.

(** [json.NewDecoder(rc).Decode(&mod)] for a zero [mod]: the struct as it
    is left, and the error returned. *)
Definition Decode (rc : io.ReadCloser) : result (ModJSON * option error) :=
  match readValue rc with
  | inr e => Done (mkModJSON EmptyString, Some e)
  | inl n => unmarshal (Bytes.upto n (io.delivered rc))
  end.

End json.

(* ------------------------------------------------------------------ *)
(** ** main.go: the nested module locator and the metadata version reader *)

Definition ModuleNotFound : error :=
  errorString ".geode file not found in zip".

Definition MetadataNotFound : error :=
  errorString "mod.json not found inside .geode file".

Definition MissingVersion : error :=
  errorString "version key not found in mod.json".

Definition MetadataCorrupt (cause : error) : error :=
  wrapError "failed to decode mod.json: " cause.

Definition CorruptArchive (cause : error) : error :=
  wrapError "failed to open zip reader: " cause.

Definition CorruptModule (cause : error) : error :=
  wrapError "failed to open .geode as zip: " cause.

Section Archives.

(** [zip.NewReader(bytes.NewReader(data), int64(len(data)))], giving
    [r.File] for a valid archive. *)
Variable NewReader : string -> error + list zip.File.

Variable os : filepath.GOOS.

(** The body of [for _, f := range r.File] in
    [extractGeodeFileFromZip]. *)
Fixpoint extractGeodeFile (files : list zip.File)
  : string * string * option error :=
  match files with
  | [] => (Bytes.nil, EmptyString, Some ModuleNotFound)
  | f :: rest =>
      if strings.HasSuffix (zip.Name f) ".geode" then
        match zip.Open f with
        | inl err =>
            (Bytes.nil, EmptyString,
             Some (wrapError "failed to open .geode file inside zip: " err))
        | inr rc =>
            match io.ReadAll rc with
            | (_, Some err) =>
                (Bytes.nil, EmptyString,
                 Some (wrapError "failed to read .geode file inside zip: " err))
            | (data, None) =>
                (data, filepath.Base os (zip.Name f), None)
            end
        end
      else extractGeodeFile rest
  end.

(** [func extractGeodeFileFromZip(zipData []byte) ([]byte, string, error)] *)
Definition extractGeodeFileFromZip (zipData : string)
  : string * string * option error :=
  match NewReader zipData with
  | inl err => (Bytes.nil, EmptyString, Some (CorruptArchive err))
  | inr files => extractGeodeFile files
  end.

(** The body of [for _, f := range r.File] in [parseVersionFromGeode].
    The variable [mod] is a fresh zero [ModJSON] in every round. *)
Fixpoint parseVersion (files : list zip.File)
  : result (string * option error) :=
  match files with
  | [] => Done (EmptyString, Some MetadataNotFound)
  | f :: rest =>
      if zip.IsDir f then parseVersion rest
      else if strings.HasSuffix (zip.Name f) "mod.json" then
        match zip.Open f with
        | inl err =>
            Done
              (EmptyString,
               Some (wrapError "failed to open mod.json inside .geode: " err))
        | inr rc =>
            andThen (json.Decode rc) (fun '(decoded, err) =>
              match err with
              | Some err => Done (EmptyString, Some (MetadataCorrupt err))
              | None =>
                  if Bytes.isEmpty (json.Version decoded)
                  then Done (EmptyString, Some MissingVersion)
                  else Done (json.Version decoded, None)
              end)
        end
      else parseVersion rest
  end.

(** [func parseVersionFromGeode(geodeData []byte) (string, error)] *)
Definition parseVersionFromGeode (geodeData : string)
  : result (string * option error) :=
  match NewReader geodeData with
  | inl err => Done (EmptyString, Some (CorruptModule err))
  | inr files => parseVersion files
  end.

End Archives.

(* ------------------------------------------------------------------ *)
(** ** package github (go-github): the values the program reads and builds

    Pointer fields are options; the [Get...] accessors answer the zero
    value for a nil pointer. *)

Module github.

Module WorkflowRun.
Record t : Type := mk { ID : option Z; HeadSHA : option string }.
Definition GetID (r : t) : Z :=
  match ID r with Some id => id | None => 0%Z end.
End WorkflowRun.

Module ArtifactWorkflowRun.
Record t : Type := mk { ID : option Z }.
End ArtifactWorkflowRun.

Module Artifact.
Record t : Type := mk {
  ID : option Z;
  Name : option string;
  WorkflowRun : option ArtifactWorkflowRun.t
}.
Definition GetID (a : t) : Z :=
  match ID a with Some id => id | None => 0%Z end.
Definition GetName (a : t) : string :=
  match Name a with Some n => n | None => EmptyString end.
Definition GetWorkflowRun (a : t) : option ArtifactWorkflowRun.t :=
  WorkflowRun a.
End Artifact.

Module Tag.
Record t : Type := mk {
  Tag : option string;
  SHA : option string;
  Message : option string;
  ObjectType : option string;
  ObjectSHA : option string;
  TaggerName : option string;
  TaggerEmail : option string
}.
Definition GetSHA (x : t) : string :=
  match SHA x with Some s => s | None => EmptyString end.
End Tag.

Module Reference.
Record t : Type := mk { Ref : option string; ObjectSHA : option string }.
(** [ref.GetObject().GetSHA()] *)
Definition GetObjectSHA (r : t) : string :=
  match ObjectSHA r with Some s => s | None => EmptyString end.
End Reference.

Module RepositoryRelease.
Record t : Type := mk {
  ID : option Z;
  TagName : option string;
  Name : option string
}.
Definition GetID (r : t) : Z :=
  match ID r with Some id => id | None => 0%Z end.
End RepositoryRelease.

End github.

(* ------------------------------------------------------------------ *)
(** ** main.go: the pipeline

    The hosting service, the network, the file system and the archive
    reader are collaborators: a [World] answers every call.  A run of
    [main] is the list of the calls it makes and of the lines it prints on
    standard output, and the way the process ends.  The lines of [debugf]
    are not part of a run; its operands are evaluated whether or not
    [verbose] is set, and that evaluation is. *)

Record Flags : Type := mkFlags {
  owner : string;
  repo : string;
  branch : string;          (* default "main" *)
  workflowFile : string;    (* default "multi-platform.yml" *)
  verbose : bool
}.

Record World : Type := mkWorld {
  Getenv : string -> string;
  ListWorkflowRunsByFileName :
    string -> string -> string -> string -> string ->
    error + list github.WorkflowRun.t;
  ListArtifacts : string -> string -> error + list github.Artifact.t;
  DownloadArtifact : string -> string -> Z -> error + string;
  CreateTemp : string -> error + string;
  HttpGet : string -> error + io.ReadCloser;
  WriteFile : string -> string -> option error;
  ReadFile : string -> error + string;
  OpenFile : string -> option error;
  NewReader : string -> error + list zip.File;
  GetRef : string -> string -> string -> error + github.Reference.t;
  CreateTag : string -> string -> github.Tag.t -> error + github.Tag.t;
  CreateRef : string -> string -> github.Reference.t -> option error;
  CreateRelease :
    string -> string -> github.RepositoryRelease.t ->
    error + github.RepositoryRelease.t;
  UploadReleaseAsset : string -> string -> Z -> string -> string -> option error
}.

Inductive Event : Type :=
| CallListWorkflowRunsByFileName (owner repo workflow status branch : string)
| CallListArtifacts (owner repo : string)
| CallDownloadArtifact (owner repo : string) (id : Z)
| CallCreateTemp (pattern : string)
| CallHttpGet (url : string)
| CallWriteFile (name data : string)
| CallReadFile (name : string)
| CallOpenFile (name : string)
| CallGetRef (owner repo ref : string)
| CallCreateTag (owner repo : string) (tag : github.Tag.t)
| CallCreateRef (owner repo : string) (ref : github.Reference.t)
| CallCreateRelease (owner repo : string) (release : github.RepositoryRelease.t)
| CallUploadReleaseAsset (owner repo : string) (id : Z) (name file : string)
| CallRemove (name : string)
| Stdout (text : string).

Inductive Exit : Type :=
| ExitSuccess                                   (** [main] returns *)
| ExitUsage                                     (** [flag.Usage(); os.Exit(1)] *)
| Fatal (msg : string) (cause : option error)   (** [log.Fatal], [log.Fatalf] *)
| Panicked (msg : string).                      (** a run-time panic *)

(** The two failures of the run/artifact selector. *)
Definition NoRunsFound (workflow branch : string) : Exit :=
  Fatal ("No completed workflow runs found for workflow '" ++ workflow
         ++ "' on branch '" ++ branch ++ "'") None.

Definition ArtifactNotFound : Exit :=
  Fatal "Artifact 'Build Output' not found for latest run" None.

Module Run.

(** A computation that logs events and may end the process. *)
Definition M (A : Type) : Type := list Event * (A + Exit).

Definition ret {A : Type} (a : A) : M A := ([], inl a).

Definition bind {A B : Type} (m : M A) (k : A -> M B) : M B :=
  match m with
  | (t, inl a) => let '(t', r) := k a in ((t ++ t')%list, r)
  | (t, inr e) => (t, inr e)
  end.

Definition emit (e : Event) : M unit := ([e], inl tt).

Definition exit {A : Type} (e : Exit) : M A := ([], inr e).

(** [if err != nil { log.Fatalf(msg + "%v", err) }] *)
Definition orFatal {A : Type} (r : error + A) (msg : string) : M A :=
  match r with
  | inl err => exit (Fatal msg (Some err))
  | inr a => ret a
  end.

Definition check (r : option error) (msg : string) : M unit :=
  match r with
  | Some err => exit (Fatal msg (Some err))
  | None => ret tt
  end.

(** A call to a collaborator that answers a value or an error. *)
Definition call {A : Type} (e : Event) (r : error + A) (msg : string) : M A :=
  bind (emit e) (fun _ => orFatal r msg).

Definition call_ (e : Event) (r : option error) (msg : string) : M unit :=
  bind (emit e) (fun _ => check r msg).

End Run.

Declare Scope run_scope.
Delimit Scope run_scope with run.
Notation "x <- m ;; k" := (Run.bind m (fun x => k))
  (at level 61, m at next level, right associativity) : run_scope.
Notation "' p <- m ;; k" := (Run.bind m (fun p => k))
  (at level 61, p pattern, m at next level, right associativity) : run_scope.
Notation "m ;;; k" := (Run.bind m (fun _ => k))
  (at level 61, right associativity) : run_scope.

Definition newline : string := Bytes.single "010".

Section Main.

Variable goos : filepath.GOOS.
Variable flags : Flags.
Variable w : World.

(** The loop over [arts.Artifacts].  The operand
    [*a.GetWorkflowRun().ID] of [debugf] is evaluated first: it panics
    when the artifact has no workflow run or the run has no ID. *)
Fixpoint selectArtifact (arts : list github.Artifact.t) (runID : Z)
  : result (option github.Artifact.t) :=
  match arts with
  | [] => Done None
  | a :: rest =>
      match github.Artifact.GetWorkflowRun a with
      | None => Panic "invalid memory address or nil pointer dereference"
      | Some run =>
          match github.ArtifactWorkflowRun.ID run with
          | None =>
              Panic "invalid memory address or nil pointer dereference"
          | Some id =>
              if String.eqb (github.Artifact.GetName a) "Build Output"
                 && (id =? runID)%Z
              then Done (Some a)
              else selectArtifact rest runID
          end
      end
  end.

(** The run/artifact selector: the part of [main] up to the selected
    artifact. *)
Definition selectBuildOutput : Run.M github.Artifact.t :=
  (runs <- Run.call
      (CallListWorkflowRunsByFileName (owner flags) (repo flags)
         (workflowFile flags) "completed" (branch flags))
      (ListWorkflowRunsByFileName w (owner flags) (repo flags)
         (workflowFile flags) "completed" (branch flags))
      "Error listing workflow runs: " ;;
   match runs with
   | [] => Run.exit (NoRunsFound (workflowFile flags) (branch flags))
   | latestRun :: _ =>
       arts <- Run.call
         (CallListArtifacts (owner flags) (repo flags))
         (ListArtifacts w (owner flags) (repo flags))
         "Error listing artifacts: " ;;
       match selectArtifact arts (github.WorkflowRun.GetID latestRun) with
       | Panic msg => Run.exit (Panicked msg)
       | Done None => Run.exit ArtifactNotFound
       | Done (Some artifact) => Run.ret artifact
       end
   end)%run.

(** [io.Copy(tmpZipFile, resp.Body)]: every chunk read is written before
    the next is read, so the bytes the body delivers are in the file when
    its read error, if any, is returned; a body that delivers nothing makes
    no write.  The writes of one copy are one [CallWriteFile] with the bytes
    delivered; the first write that fails ends the copy. *)
Definition copyBody (name : string) (body : io.ReadCloser) : Run.M unit :=
  ((if Bytes.isEmpty (io.delivered body) then Run.ret tt
    else Run.call_ (CallWriteFile name (io.delivered body))
           (WriteFile w name (io.delivered body))
           "Error writing artifact to temp file: ") ;;;
   Run.check (io.failure body) "Error writing artifact to temp file: ")%run.

(** The download of the artifact into a temporary file and back into
    memory. *)
Definition download (artifact : github.Artifact.t) : Run.M (string * string) :=
  (artifactURL <- Run.call
      (CallDownloadArtifact (owner flags) (repo flags)
         (github.Artifact.GetID artifact))
      (DownloadArtifact w (owner flags) (repo flags)
         (github.Artifact.GetID artifact))
      "Error getting artifact download URL: " ;;
   tmpZipFile <- Run.call (CallCreateTemp "artifact-*.zip")
      (CreateTemp w "artifact-*.zip")
      "Error creating temp file for artifact download: " ;;
   body <- Run.call (CallHttpGet artifactURL) (HttpGet w artifactURL)
      "Error downloading artifact: " ;;
   copyBody tmpZipFile body ;;;
   zipData <- Run.call (CallReadFile tmpZipFile) (ReadFile w tmpZipFile)
      "Error reading downloaded artifact zip from temp file: " ;;
   Run.ret (tmpZipFile, zipData))%run.

(** The tag and the release made for a version. *)
Definition newTag (tagName version commitSHA : string) : github.Tag.t :=
  github.Tag.mk (Some tagName) None
    (Some (fmt.Sprintf_s "Tag for version " version))
    (Some "commit") (Some commitSHA)
    (Some "GitHub Actions Bot") (Some "actions@github.com").

Definition newRelease (tagName : string) : github.RepositoryRelease.t :=
  github.RepositoryRelease.mk None (Some tagName)
    (Some (fmt.Sprintf_s "Release " tagName)).

(** [func main()], after [flag.Parse()]. *)
Definition main_ : Run.M unit :=
  (if Bytes.isEmpty (owner flags) || Bytes.isEmpty (repo flags)
   then Run.exit ExitUsage
   else
   if Bytes.isEmpty (Getenv w "GITHUB_TOKEN")
   then Run.exit (Fatal "GITHUB_TOKEN environment variable must be set" None)
   else
   artifact <- selectBuildOutput ;;
   '(tmpZipFile, zipData) <- download artifact ;;
   '(geodeData, geodeFilename) <-
      match extractGeodeFileFromZip (NewReader w) goos zipData with
      | (_, _, Some err) =>
          Run.exit (Fatal "Error extracting .geode file: " (Some err))
      | (data, name, None) => Run.ret (data, name)
      end ;;
   Run.emit (Stdout ("Found .geode file: " ++ geodeFilename ++ newline)) ;;;
   version <-
      match parseVersionFromGeode (NewReader w) geodeData with
      | Panic msg => Run.exit (Panicked msg)
      | Done (_, Some err) =>
          Run.exit (Fatal "Error parsing mod.json: " (Some err))
      | Done (version, None) => Run.ret version
      end ;;
   Run.emit (Stdout ("Parsed version: " ++ version ++ newline)) ;;;
   let tagName := fmt.Sprintf version in
   ref <- Run.call
      (CallGetRef (owner flags) (repo flags) ("refs/heads/" ++ branch flags))
      (GetRef w (owner flags) (repo flags) ("refs/heads/" ++ branch flags))
      "Error getting branch ref: " ;;
   let commitSHA := github.Reference.GetObjectSHA ref in
   let tag := newTag tagName version commitSHA in
   createdTag <- Run.call (CallCreateTag (owner flags) (repo flags) tag)
      (CreateTag w (owner flags) (repo flags) tag)
      "Error creating git tag object: " ;;
   let refTag :=
     github.Reference.mk (Some ("refs/tags/" ++ tagName))
       (github.Tag.SHA createdTag) in
   Run.call_ (CallCreateRef (owner flags) (repo flags) refTag)
      (CreateRef w (owner flags) (repo flags) refTag)
      "Error creating tag ref: " ;;;
   Run.emit (Stdout ("Created tag " ++ tagName ++ newline)) ;;;
   let release := newRelease tagName in
   createdRelease <- Run.call
      (CallCreateRelease (owner flags) (repo flags) release)
      (CreateRelease w (owner flags) (repo flags) release)
      "Error creating release: " ;;
   tmpfile <- Run.call (CallCreateTemp "mod-*.geode")
      (CreateTemp w "mod-*.geode")
      "Error creating temp file for upload: " ;;
   Run.call_ (CallWriteFile tmpfile geodeData)
      (WriteFile w tmpfile geodeData)
      "Error writing .geode to temp file: " ;;;
   Run.call_ (CallOpenFile tmpfile) (OpenFile w tmpfile)
      "Error opening temp file for upload: " ;;;
   Run.call_
      (CallUploadReleaseAsset (owner flags) (repo flags)
         (github.RepositoryRelease.GetID createdRelease) geodeFilename tmpfile)
      (UploadReleaseAsset w (owner flags) (repo flags)
         (github.RepositoryRelease.GetID createdRelease) geodeFilename tmpfile)
      "Error uploading release asset: " ;;;
   Run.emit
     (Stdout ("Release created and asset uploaded successfully" ++ newline)) ;;;
   (* the deferred calls, last first *)
   Run.emit (CallRemove tmpfile) ;;;
   Run.emit (CallRemove tmpZipFile))%run.

(** A run of the program: its events and its exit. *)
Definition main : list Event * Exit :=
  match main_ with
  | (t, inl _) => (t, ExitSuccess)
  | (t, inr e) => (t, e)
  end.

End Main.

(* ------------------------------------------------------------------ *)
(** ** The display filename in the words of the specification

    The components of a name are the parts between its slashes; the display
    filename is the last of them. *)

Fixpoint components (s : string) : list string :=
  match s with
  | EmptyString => [EmptyString]
  | String c r =>
      if Ascii.eqb c "/" then EmptyString :: components r
      else match components r with
           | h :: t => String c h :: t
           | [] => [Bytes.single c]
           end
  end.

Definition lastComponent (s : string) : string :=
  List.last (components s) EmptyString.

(* ------------------------------------------------------------------ *)
(** ** Sample archives and a sample world *)

Module Sample.

(** A regular file entry written on Unix, mode 0644. *)
Definition fileEntry (name content : string) : zip.File :=
  zip.mkFile name 0x031E 0x81A40000
    (inr (io.mkReadCloser content None)).

(** A directory entry written on Unix, mode 0755, as
    [zip.FileInfoHeader] makes it for a directory: the name carries no
    trailing slash unless the caller adds one. *)
Definition dirEntry (name : string) : zip.File :=
  zip.mkFile name 0x031E 0x41ED0000
    (inr (io.mkReadCloser EmptyString None)).

(** An archive reader that knows the given archives by their bytes. *)
Fixpoint reader (known : list (string * list zip.File)) (data : string)
  : error + list zip.File :=
  match known with
  | [] => inl (foreign "zip: not a valid zip file")
  | (bytes, files) :: more =>
      if String.eqb data bytes then inr files else reader more data
  end.

(** The JSON text [{"version":v}] for a JSON value [v]. *)
Definition versionRecord (v : string) : string :=
  "{" ++ Bytes.quoted "version" ++ ":" ++ v ++ "}".

Definition run42 : github.WorkflowRun.t :=
  github.WorkflowRun.mk (Some 42%Z) (Some "0123abc").

Definition artifact (id : Z) (name : string) (runID : Z)
  : github.Artifact.t :=
  github.Artifact.mk (Some id) (Some name)
    (Some (github.ArtifactWorkflowRun.mk (Some runID))).

(** A world in which every call succeeds: the given runs and artifacts,
    an outer archive with [mod-final.geode], whose [mod.json] holds the
    given content. *)
Definition world (runs : list github.WorkflowRun.t)
  (arts : list github.Artifact.t) (modJSON : string) : World :=
  mkWorld
    (fun _ => "token")
    (fun _ _ _ _ _ => inr runs)
    (fun _ _ => inr arts)
    (fun _ _ _ => inr "https://example.invalid/artifact.zip")
    (fun pattern => inr ("/tmp/" ++ pattern))
    (fun _ => inr (io.mkReadCloser "outer" None))
    (fun _ _ => None)
    (fun _ => inr "outer")
    (fun _ => None)
    (reader [("outer", [fileEntry "mod-final.geode" "inner"]);
             ("inner", [fileEntry "mod.json" modJSON])])
    (fun _ _ _ => inr (github.Reference.mk (Some "refs/heads/main")
                         (Some "0123abc")))
    (fun _ _ tag =>
       inr (github.Tag.mk (github.Tag.Tag tag) (Some "feedbee")
              (github.Tag.Message tag) (github.Tag.ObjectType tag)
              (github.Tag.ObjectSHA tag) (github.Tag.TaggerName tag)
              (github.Tag.TaggerEmail tag)))
    (fun _ _ _ => None)
    (fun _ _ release =>
       inr (github.RepositoryRelease.mk (Some 7%Z)
              (github.RepositoryRelease.TagName release)
              (github.RepositoryRelease.Name release)))
    (fun _ _ _ _ _ => None).

Definition flags : Flags :=
  mkFlags "octo" "mod" "main" "multi-platform.yml" false.

End Sample.

(* ------------------------------------------------------------------ *)
(** ** Auxiliary predicates used in the statements *)

Fixpoint hasSlash (s : string) : bool :=
  match s with
  | EmptyString => false
  | String c r => Ascii.eqb c "/" || hasSlash r
  end.


(** [s[len(s)-1]] *)
Definition lastByte (s : string) : ascii :=
  Bytes.byteAt s (String.length s - 1).

(** The test of the locator's loop. *)
Definition isModule (f : zip.File) : bool :=
  strings.HasSuffix (zip.Name f) ".geode".

(** What the locator answers once it has stopped at the entry [f]. *)
Definition located (os : filepath.GOOS) (f : zip.File)
  : string * string * option error :=
  match zip.Open f with
  | inl err =>
      (Bytes.nil, EmptyString,
       Some (wrapError "failed to open .geode file inside zip: " err))
  | inr rc =>
      match io.failure rc with
      | Some err =>
          (Bytes.nil, EmptyString,
           Some (wrapError "failed to read .geode file inside zip: " err))
      | None => (io.delivered rc, filepath.Base os (zip.Name f), None)
      end
  end.

(** The test of the loop of the metadata version reader. *)
Definition isMetadata (f : zip.File) : bool :=
  negb (zip.IsDir f) && strings.HasSuffix (zip.Name f) "mod.json".

(** What the reader answers once it has stopped at the entry [f]. *)
Definition versionOf (f : zip.File) : result (string * option error) :=
  match zip.Open f with
  | inl err =>
      Done
        (EmptyString,
         Some (wrapError "failed to open mod.json inside .geode: " err))
  | inr rc =>
      andThen (json.Decode rc) (fun '(decoded, err) =>
        match err with
        | Some err => Done (EmptyString, Some (MetadataCorrupt err))
        | None =>
            if Bytes.isEmpty (json.Version decoded)
            then Done (EmptyString, Some MissingVersion)
            else Done (json.Version decoded, None)
        end)
  end.

(** The identifier of the run that owns an artifact, when the artifact
    carries one. *)
Definition runIDOf (a : github.Artifact.t) : option Z :=
  match github.Artifact.GetWorkflowRun a with
  | Some run => github.ArtifactWorkflowRun.ID run
  | None => None
  end.

(** The test of the selector's loop. *)
Definition isBuildOutput (runID : Z) (a : github.Artifact.t) : bool :=
  String.eqb (github.Artifact.GetName a) "Build Output"
  && match runIDOf a with
     | Some id => (id =? runID)%Z
     | None => false
     end.

(** The names a call gives to the tag, the tag reference and the release it
    creates. *)
Definition namesGiven (e : Event) : list string :=
  match e with
  | CallCreateTag _ _ tag =>
      match github.Tag.Tag tag with Some n => [n] | None => [] end
  | CallCreateRef _ _ ref =>
      match github.Reference.Ref ref with Some n => [n] | None => [] end
  | CallCreateRelease _ _ release =>
      match github.RepositoryRelease.TagName release,
            github.RepositoryRelease.Name release with
      | Some n, Some title => [n; title]
      | _, _ => []
      end
  | _ => []
  end.

Fixpoint hasPercent (s : string) : bool :=
  match s with
  | EmptyString => false
  | String c r => Ascii.eqb c "%" || hasPercent r
  end.

(** The states a scanner can be in: an error is recorded exactly in the
    error state, the top-level value has ended exactly in the end state (or
    in an error after it), and inside a composite value the stack is not
    empty. *)
Definition wf (s : json.scanner) : bool :=
  let noErr := match json.err s with None => true | Some _ => false end in
  let open := match json.parseState s with [] => false | _ :: _ => true end in
  match json.step s with
  | json.stateError => negb noErr
  | json.stateEndTop => noErr && json.endTop s && negb open
  | json.stateBeginValueOrEmpty | json.stateBeginStringOrEmpty
  | json.stateBeginString => noErr && negb (json.endTop s) && open
  | _ => noErr && negb (json.endTop s)
  end.

(** The calls to the hosting service, numbered in the order in which
    [main] makes them. *)
Definition remoteStep (e : Event) : list nat :=
  match e with
  | CallListWorkflowRunsByFileName _ _ _ _ _ => [0]
  | CallListArtifacts _ _ => [1]
  | CallDownloadArtifact _ _ _ => [2]
  | CallGetRef _ _ _ => [3]
  | CallCreateTag _ _ _ => [4]
  | CallCreateRef _ _ _ => [5]
  | CallCreateRelease _ _ _ => [6]
  | CallUploadReleaseAsset _ _ _ _ _ => [7]
  | _ => []
  end.

Definition remoteSteps (trace : list Event) : list nat :=
  List.flat_map remoteStep trace.

(** The last line [main] prints. *)
Definition successLine : string :=
  "Release created and asset uploaded successfully" ++ newline.

(** A byte that a JSON string holds as it is: printable ASCII other than
    the double quote and the backslash. *)
Definition plainByte (c : ascii) : bool :=
  (0x20 <=? Bytes.code c)%N && (Bytes.code c <? 0x80)%N
  && negb (Ascii.eqb c Bytes.dquote) && negb (Ascii.eqb c "\").

Fixpoint plain (v : string) : bool :=
  match v with
  | EmptyString => true
  | String c r => plainByte c && plain r
  end.

(** The bytes of [Sample.versionRecord] before the text of the version:
    the opening brace, the key, the colon and the opening quote. *)
Definition recordHead : string :=
  "{" ++ Bytes.quoted "version" ++ ":" ++ Bytes.single Bytes.dquote.

(** What a member of a flat JSON object holds: a string or [null]. *)
Inductive memberValue : Type :=
| JString (s : string)
| JNull.

(** The JSON text of a value, of a member, and of the object with the
    given members, written without white space; the strings are written as
    they are, between double quotes. *)
Definition valueText (v : memberValue) : string :=
  match v with
  | JString s => Bytes.quoted s
  | JNull => "null"
  end.

Definition memberText (m : string * memberValue) : string :=
  Bytes.quoted (fst m) ++ ":" ++ valueText (snd m).

Fixpoint membersTail (ms : list (string * memberValue)) : string :=
  match ms with
  | [] => "}"
  | m :: rest => "," ++ memberText m ++ membersTail rest
  end.

Definition objectText (ms : list (string * memberValue)) : string :=
  match ms with
  | [] => "{}"
  | m :: rest => "{" ++ memberText m ++ membersTail rest
  end.







(* ================================================================== *)
(** * Properties *)

(* ------------------------------------------------------------------ *)
(** ** Facts about byte strings *)

Section StringFacts.

Lemma length_append (a b : string) :
  String.length (a ++ b) = String.length a + String.length b.
Proof. induction a as [|c a IH]; simpl; [reflexivity | now rewrite IH]. Qed.

Lemma append_nil_r (a : string) : a ++ EmptyString = a.
Proof. induction a as [|c a IH]; simpl; [reflexivity | now rewrite IH]. Qed.

Lemma append_assoc (a b c : string) : (a ++ b) ++ c = a ++ (b ++ c).
Proof. induction a as [|x a IH]; simpl; [reflexivity | now rewrite IH]. Qed.

Lemma from_append (a b : string) : Bytes.from (String.length a) (a ++ b) = b.
Proof. induction a as [|c a IH]; simpl; [now destruct b | exact IH]. Qed.

Lemma upto_append (a b : string) : Bytes.upto (String.length a) (a ++ b) = a.
Proof. induction a as [|c a IH]; simpl; [now destruct b | now rewrite IH]. Qed.

Lemma upto_length (a : string) : Bytes.upto (String.length a) a = a.
Proof. induction a as [|c a IH]; simpl; [reflexivity | now rewrite IH]. Qed.

Lemma from_0 (a : string) : Bytes.from 0 a = a.
Proof. now destruct a. Qed.

Lemma get_append_r (a b : string) (i : nat) :
  String.get (String.length a + i) (a ++ b) = String.get i b.
Proof. induction a as [|c a IH]; simpl; [reflexivity | exact IH]. Qed.

Lemma byteAt_append_r (a b : string) (i : nat) :
  Bytes.byteAt (a ++ b) (String.length a + i) = Bytes.byteAt b i.
Proof. unfold Bytes.byteAt. now rewrite get_append_r. Qed.

(** [strings.HasSuffix] is the suffix relation. *)
Lemma HasSuffix_iff (s suffix : string) :
  strings.HasSuffix s suffix = true <-> exists p, s = p ++ suffix.
Proof.
  unfold strings.HasSuffix. split.
  - intros H. apply andb_prop in H as [Hlen Heq].
    apply Nat.leb_le in Hlen. apply String.eqb_eq in Heq.
    exists (Bytes.upto (String.length s - String.length suffix) s).
    revert Heq. clear Hlen.
    generalize (String.length s - String.length suffix) as n.
    intros n <-. revert n.
    induction s as [|c s IH]; intros [|n]; simpl; try reflexivity.
    now rewrite <- IH.
  - intros [p ->]. rewrite length_append.
    replace (String.length p + String.length suffix - String.length suffix)
      with (String.length p) by lia.
    rewrite from_append, String.eqb_refl.
    apply andb_true_intro. split; [apply Nat.leb_le; lia | reflexivity].
Qed.

End StringFacts.

(* ------------------------------------------------------------------ *)
(** ** [filepath.Base] where the slash is the only separator *)

Section BaseFacts.

Lemma lastByte_append (a b : string) :
  b <> EmptyString -> lastByte (a ++ b) = lastByte b.
Proof.
  intros Hb. unfold lastByte. rewrite length_append.
  destruct b as [|c b]; [congruence|]. simpl String.length.
  replace (String.length a + S (String.length b) - 1)
    with (String.length a + String.length b) by lia.
  rewrite byteAt_append_r. simpl. now rewrite Nat.sub_0_r.
Qed.

Lemma split_last_slash (s : string) :
  hasSlash s = false
  \/ exists d b, s = d ++ String "/" b /\ hasSlash b = false.
Proof.
  induction s as [|c s IH]; [now left|].
  destruct IH as [Hno | (d & b & -> & Hb)].
  - simpl. destruct (Ascii.eqb_spec c "/") as [->|Hc].
    + right. exists EmptyString, s. now split.
    + now left.
  - right. exists (String c d), b. now split.
Qed.

Lemma components_nonempty (s : string) : components s <> [].
Proof.
  induction s as [|c s IH]; simpl; [discriminate|].
  destruct (Ascii.eqb c "/"); [discriminate|].
  now destruct (components s).
Qed.

Lemma components_no_slash (b : string) :
  hasSlash b = false -> components b = [b].
Proof.
  induction b as [|c b IH]; simpl; [reflexivity|].
  intros H. apply orb_false_elim in H as [Hc Hb].
  now rewrite Hc, (IH Hb).
Qed.

Lemma components_append (d b : string) :
  components (d ++ String "/" b) = (components d ++ components b)%list.
Proof.
  induction d as [|c d IH]; simpl; [reflexivity|].
  rewrite IH. destruct (Ascii.eqb c "/"); [reflexivity|].
  pose proof (components_nonempty d) as Hd.
  now destruct (components d).
Qed.

Lemma lastComponent_after_slash (d b : string) :
  hasSlash b = false -> lastComponent (d ++ String "/" b) = b.
Proof.
  intros Hb. unfold lastComponent.
  rewrite components_append, (components_no_slash b Hb).
  apply List.last_last.
Qed.

Lemma byteAt_no_slash (b : string) (i : nat) :
  hasSlash b = false -> Ascii.eqb (Bytes.byteAt b i) "/" = false.
Proof.
  revert i. induction b as [|c b IH]; intros i H.
  - now destruct i.
  - simpl in H. apply orb_false_elim in H as [Hc Hb].
    destruct i as [|i]; [exact Hc | exact (IH i Hb)].
Qed.

Lemma lastSeparator_no_slash (b : string) (n : nat) :
  hasSlash b = false -> filepath.lastSeparator filepath.unix b n = None.
Proof.
  intros Hb. induction n as [|n IH]; simpl; [reflexivity|].
  now rewrite (byteAt_no_slash b n Hb).
Qed.

Lemma lastSeparator_after_slash (d b : string) (k : nat) :
  hasSlash b = false ->
  filepath.lastSeparator filepath.unix (d ++ String "/" b)
    (String.length d + 1 + k) = Some (String.length d).
Proof.
  intros Hb. induction k as [|k IH].
  - replace (String.length d + 1 + 0) with (S (String.length d + 0)) by lia.
    simpl. rewrite byteAt_append_r. simpl. now rewrite Nat.add_0_r.
  - replace (String.length d + 1 + S k)
      with (S (String.length d + S k)) by lia.
    simpl. rewrite byteAt_append_r.
    change (Bytes.byteAt (String "/" b) (S k)) with (Bytes.byteAt b k).
    rewrite (byteAt_no_slash b k Hb).
    replace (String.length d + S k) with (String.length d + 1 + k) by lia.
    exact IH.
Qed.

Lemma stripTrailing_none (path : string) (n : nat) :
  Ascii.eqb (lastByte path) "/" = false ->
  filepath.stripTrailing filepath.unix n path = path.
Proof.
  intros H. destruct n as [|n]; simpl; [reflexivity|].
  fold (lastByte path). now rewrite H, andb_false_r.
Qed.

(** On a system whose only separator is the slash, the base of a
    non-empty path that does not end in a slash is its last
    component. *)
Lemma Base_unix_lastComponent (path : string) :
  path <> EmptyString ->
  Ascii.eqb (lastByte path) "/" = false ->
  filepath.Base filepath.unix path = lastComponent path.
Proof.
  intros Hne Hlast. unfold filepath.Base.
  assert (Hemp : Bytes.isEmpty path = false) by (now destruct path).
  rewrite Hemp, (stripTrailing_none path _ Hlast).
  simpl filepath.volumeNameLen. rewrite from_0.
  destruct (split_last_slash path) as [Hno | (d & b & Hs & Hb)].
  - rewrite (lastSeparator_no_slash path _ Hno), Hemp.
    unfold lastComponent. now rewrite (components_no_slash path Hno).
  - subst path.
    assert (Hbne : b <> EmptyString).
    { intros ->. rewrite lastByte_append in Hlast by discriminate.
      discriminate Hlast. }
    rewrite length_append. simpl String.length.
    replace (String.length d + S (String.length b))
      with (String.length d + 1 + String.length b) by lia.
    rewrite (lastSeparator_after_slash d b _ Hb).
    replace (Bytes.from (String.length d + 1) (d ++ String "/" b)) with b.
    + rewrite (lastComponent_after_slash d b Hb). now destruct b.
    + replace (d ++ String "/" b) with ((d ++ "/") ++ b)
        by (now rewrite append_assoc).
      replace (String.length d + 1) with (String.length (d ++ "/"))
        by (rewrite length_append; reflexivity).
      now rewrite from_append.
Qed.





End BaseFacts.

(* ------------------------------------------------------------------ *)
(** ** The nested module locator *)

Section LocatorFacts.

(** The loop stops at the first entry whose name has the suffix; the
    directory flag of the entry is not looked at. *)
Lemma extractGeodeFile_find (os : filepath.GOOS) (files : list zip.File) :
  extractGeodeFile os files =
  match List.find isModule files with
  | Some f => located os f
  | None => (Bytes.nil, EmptyString, Some ModuleNotFound)
  end.
Proof.
  induction files as [|f rest IH]; simpl; [reflexivity|].
  unfold isModule at 1.
  destruct (strings.HasSuffix (zip.Name f) ".geode"); [|exact IH].
  unfold located, io.ReadAll.
  destruct (zip.Open f) as [err|rc]; [reflexivity|].
  now destruct (io.failure rc).
Qed.

(** Where no directory entry has the suffix, the entry the loop stops at
    is the first non-directory entry with the suffix. *)
Lemma find_module_skipping_directories (files : list zip.File) :
  (forall f, In f files -> zip.IsDir f = true -> isModule f = false) ->
  List.find isModule files
  = List.find (fun f => negb (zip.IsDir f) && isModule f) files.
Proof.
  induction files as [|f rest IH]; intros H; simpl; [reflexivity|].
  rewrite IH by (intros g Hg; apply H; now right).
  destruct (zip.IsDir f) eqn:Ed; simpl; [|reflexivity].
  now rewrite (H f (or_introl eq_refl) Ed).
Qed.

Lemma module_name_shape (name : string) :
  strings.HasSuffix name ".geode" = true ->
  name <> EmptyString /\ Ascii.eqb (lastByte name) "/" = false.
Proof.
  intros H. apply HasSuffix_iff in H as [p ->]. split.
  - now destruct p.
  - now rewrite lastByte_append.
Qed.

End LocatorFacts.

(** C6: for a valid outer archive none of whose entries has a name ending
    in [.geode], the locator fails with [ModuleNotFound] and returns neither
    content bytes nor a filename. *)
Theorem C6_module_not_found
  (NewReader : string -> error + list zip.File) (os : filepath.GOOS)
  (zipData : string) (files : list zip.File) :
  NewReader zipData = inr files ->
  (forall f, In f files -> strings.HasSuffix (zip.Name f) ".geode" = false) ->
  extractGeodeFileFromZip NewReader os zipData
  = (Bytes.nil, EmptyString, Some ModuleNotFound).
Proof.
  intros Hopen Hnone. unfold extractGeodeFileFromZip. rewrite Hopen.
  clear Hopen. induction files as [|f rest IH]; simpl; [reflexivity|].
  rewrite (Hnone f (or_introl eq_refl)).
  apply IH. intros g Hg. apply Hnone. now right.
Qed.

Lemma C6_module_not_found_witness :
  extractGeodeFileFromZip
    (Sample.reader
       [("outer", [Sample.fileEntry "a.txt" "x";
                   Sample.fileEntry "build/readme.md" "y"])])
    filepath.unix "outer"
  = (Bytes.nil, EmptyString, Some ModuleNotFound).
Proof.
  apply (C6_module_not_found _ filepath.unix "outer"
           [Sample.fileEntry "a.txt" "x";
            Sample.fileEntry "build/readme.md" "y"]).
  - reflexivity.
  - intros f [<-|[<-|[]]]; reflexivity.
Defined.

(** C2: a directory entry whose name ends in [.geode] and that comes before
    a regular module file is the entry the locator selects: the loop of
    [extractGeodeFileFromZip] has no directory test, unlike the loop of
    [parseVersionFromGeode]. *)
Theorem C2_directory_entry_selected :
  zip.IsDir (Sample.dirEntry "mods.geode") = true
  /\ extractGeodeFileFromZip
       (Sample.reader
          [("outer", [Sample.dirEntry "mods.geode";
                      Sample.fileEntry "build/mod-v1.geode" "inner"])])
       filepath.unix "outer"
     = (EmptyString, "mods.geode", None).
Proof. split; reflexivity. Qed.




Example display_filename_of_spec_example :
  lastComponent "build/mod-v1.geode" = "mod-v1.geode".
Proof. reflexivity. Qed.

(* ------------------------------------------------------------------ *)
(** ** The JSON scanner *)

Section ScannerFacts.

Import json.

Ltac open_step :=
  unfold stepWith, do0, doESign, expect, hexDigit, doBeginValue,
    doBeginString, doEndValue, doEndTop, pushParseState, popParseState,
    error_at, setStep in *;
  cbn [step endTop parseState err fst snd List.tl] in *.

Ltac split_ifs_in H :=
  repeat match type of H with
    | context [if ?b then _ else _] => destruct b eqn:?
    end.

(** Case analysis on the state function, the flags and the top of the
    stack of a well-formed scanner that takes the step [H]. *)
Ltac by_cases s Hwf H :=
  destruct s as [st et ps er]; unfold wf in Hwf;
  destruct st; cbn [step endTop parseState err] in Hwf;
  destruct er as [e|]; try discriminate Hwf;
  destruct et; try discriminate Hwf;
  try (destruct ps as [|[] ps]); try discriminate Hwf;
  open_step;
  split_ifs_in H;
  inversion H; subst; clear H;
  cbn [step endTop parseState err fst snd List.tl wf negb andb] in *.

Lemma step_facts (s s' : scanner) (c : ascii) (op : opcode) :
  wf s = true -> stepWith s c = (s', op) ->
  wf s' = true
  /\ (op = scanError -> err s' <> None)
  /\ (err s = None -> op <> scanEnd -> op <> scanError -> err s' = None)
  /\ (err s = None -> op = scanEnd -> parseState s = [])
  /\ (op = scanEndObject \/ op = scanEndArray ->
      doEndValue s' " "
      = (s', match parseState s' with [] => scanEnd | _ :: _ => scanSkipSpace end)
      /\ (parseState s' = [] -> endTop s' = true))
  /\ (err s = None -> parseState s <> [] ->
      op <> scanEndObject -> op <> scanEndArray -> op <> scanError ->
      parseState s' <> []).
Proof.
  intros Hwf H. by_cases s Hwf H.
  all: repeat split; intros; try discriminate; try congruence.
  all: try match goal with
         | H : _ \/ _ |- _ => destruct H; discriminate
         end.
  all: destruct ps as [|[] ps]; reflexivity.
Qed.

(** A byte that ends the top-level value: the input up to that byte is a
    complete value. *)
Lemma eof_after_scanEnd (s s' : scanner) (c : ascii) :
  wf s = true -> err s = None -> stepWith s c = (s', scanEnd) ->
  snd (eof s) = scanEnd.
Proof.
  intros Hwf Herr H. by_cases s Hwf H; try discriminate; reflexivity.
Qed.

(** Inside a composite value the input cannot end. *)
Lemma eof_open (s : scanner) :
  wf s = true -> err s = None -> parseState s <> [] ->
  snd (eof s) = scanError.
Proof.
  intros Hwf Herr Hopen. destruct s as [st et ps er].
  cbn in Herr, Hopen. subst er. destruct ps as [|p ps]; [congruence|].
  unfold wf in Hwf.
  destruct st, et; try discriminate Hwf; destruct p; reflexivity.
Qed.

Lemma wf_reset : wf reset = true.
Proof. reflexivity. Qed.

Lemma checkValidFrom_cons (s : scanner) (c : ascii) (rest : string) :
  checkValidFrom s (String c rest)
  = (let '(s', op) := stepWith s c in
     if opcode_eqb op scanError then err s' else checkValidFrom s' rest).
Proof. reflexivity. Qed.

Lemma checkValidFrom_nil (s : scanner) :
  snd (eof s) = scanEnd -> checkValidFrom s EmptyString = None.
Proof.
  intros H. cbn [checkValidFrom]. destruct (eof s) as [s' op].
  cbn in H. now subst op.
Qed.

(** Where [readValue] finds the end of the first value, the bytes before
    it are a valid JSON text. *)
Lemma scanBuffer_complete (buf : string) :
  forall (s : scanner) (k n : nat),
    wf s = true -> err s = None ->
    scanBuffer s buf k = complete n ->
    exists m, n = k + m /\ checkValidFrom s (Bytes.upto m buf) = None.
Proof.
  induction buf as [|c rest IH]; intros s k n Hwf Herr H; [discriminate|].
  cbn [scanBuffer] in H.
  destruct (stepWith s c) as [s' op] eqn:Estep.
  destruct (step_facts s s' c op Hwf Estep)
    as (Hwf' & Herror & Hkeep & _ & Hclose & _).
  assert (Hgo : op <> scanEnd -> op <> scanError ->
            scanBuffer s' rest (S k) = complete n ->
            exists m, n = k + m /\
                      checkValidFrom s (Bytes.upto m (String c rest)) = None).
  { intros He Hr Hscan.
    destruct (IH s' (S k) n Hwf' (Hkeep Herr He Hr) Hscan) as (m & -> & Hm).
    exists (S m). split; [lia|].
    cbn [Bytes.upto]. rewrite checkValidFrom_cons, Estep.
    destruct op; try exact Hm; congruence. }
  assert (Hend : op = scanEndObject \/ op = scanEndArray ->
            (let '(s'', op') := doEndValue s' " " in
             if opcode_eqb op' scanEnd then complete (S k)
             else scanBuffer s'' rest (S k)) = complete n ->
            exists m, n = k + m /\
                      checkValidFrom s (Bytes.upto m (String c rest)) = None).
  { intros Hop Hscan. destruct (Hclose Hop) as [Hdo Htop].
    rewrite Hdo in Hscan.
    destruct (parseState s') as [|p ps] eqn:Eps; cbn in Hscan.
    - injection Hscan as <-. exists 1. split; [lia|].
      cbn [Bytes.upto]. rewrite checkValidFrom_cons, Estep.
      replace (opcode_eqb op scanError) with false
        by (destruct Hop; subst op; reflexivity).
      apply checkValidFrom_nil. unfold eof.
      rewrite (Hkeep Herr) by (destruct Hop; subst op; discriminate).
      now rewrite (Htop eq_refl).
    - apply Hgo; [destruct Hop; subst op; discriminate ..|exact Hscan]. }
  destruct op; try (apply Hgo; [discriminate | discriminate | exact H]).
  - apply Hend; [now left | exact H].
  - apply Hend; [now right | exact H].
  - injection H as <-. exists 0. split; [lia|].
    apply checkValidFrom_nil. exact (eof_after_scanEnd s s' c Hwf Herr Estep).
  - destruct (err s') eqn:Ee; [discriminate|]. now destruct (Herror eq_refl).
Qed.

(** Where the buffer ends inside the first value, validating the buffer
    is asking the scanner it has reached whether the input may end. *)
Lemma scanBuffer_exhausted (buf : string) :
  forall (s : scanner) (k : nat) (last : scanner),
    wf s = true -> err s = None ->
    scanBuffer s buf k = exhausted last ->
    wf last = true /\ err last = None
    /\ checkValidFrom s buf = checkValidFrom last EmptyString.
Proof.
  induction buf as [|c rest IH]; intros s k last Hwf Herr H.
  - injection H as <-. now repeat split.
  - cbn [scanBuffer] in H.
    destruct (stepWith s c) as [s' op] eqn:Estep.
    destruct (step_facts s s' c op Hwf Estep)
      as (Hwf' & Herror & Hkeep & _ & Hclose & _).
    rewrite checkValidFrom_cons, Estep.
    assert (Hgo : op <> scanEnd -> op <> scanError ->
              scanBuffer s' rest (S k) = exhausted last ->
              wf last = true /\ err last = None
              /\ (if opcode_eqb op scanError then err s'
                  else checkValidFrom s' rest)
                 = checkValidFrom last EmptyString).
    { intros He Hr Hscan.
      destruct (IH s' (S k) last Hwf' (Hkeep Herr He Hr) Hscan)
        as (? & ? & ?).
      repeat split; try assumption. destruct op; cbn [opcode_eqb]; congruence. }
    assert (Hend : op = scanEndObject \/ op = scanEndArray ->
              (let '(s'', op') := doEndValue s' " " in
               if opcode_eqb op' scanEnd then complete (S k)
               else scanBuffer s'' rest (S k)) = exhausted last ->
              wf last = true /\ err last = None
              /\ (if opcode_eqb op scanError then err s'
                  else checkValidFrom s' rest)
                 = checkValidFrom last EmptyString).
    { intros Hop Hscan. destruct (Hclose Hop) as [Hdo _].
      rewrite Hdo in Hscan.
      destruct (parseState s'); cbn in Hscan; [discriminate|].
      apply Hgo; [destruct Hop; subst op; discriminate ..|exact Hscan]. }
    destruct op; try (apply Hgo; [discriminate | discriminate | exact H]).
    + apply Hend; [now left | exact H].
    + apply Hend; [now right | exact H].
    + discriminate.
    + destruct (err s'); discriminate.
Qed.

(** The bytes that [readValue] takes for the first value are a valid JSON
    text. *)
Lemma readValue_valid (rc : io.ReadCloser) (n : nat) :
  readValue rc = inl n ->
  Valid (Bytes.upto n (io.delivered rc)) = true.
Proof.
  unfold readValue, Valid, checkValid. intros H.
  destruct (scanBuffer reset (io.delivered rc) 0) as [m|e|last] eqn:Escan.
  - injection H as <-.
    destruct (scanBuffer_complete _ _ _ _ wf_reset eq_refl Escan)
      as (m' & -> & Hm).
    cbn [Nat.add]. now rewrite Hm.
  - discriminate.
  - destruct (io.failure rc); [discriminate|].
    destruct (stepWith last " ") as [s' op] eqn:Estep. cbn [snd] in H.
    destruct (opcode_eqb op scanEnd) eqn:Eop.
    + injection H as <-. rewrite upto_length.
      destruct (scanBuffer_exhausted _ _ _ _ wf_reset eq_refl Escan)
        as (Hwf & Herr & ->).
      assert (op = scanEnd) as -> by (destruct op; discriminate || reflexivity).
      now rewrite (checkValidFrom_nil last (eof_after_scanEnd _ _ _ Hwf Herr Estep)).
    + destruct (nonSpace (io.delivered rc)); discriminate.
Qed.

Lemma lastByte_cons (c : ascii) (r : string) :
  r <> EmptyString -> lastByte (String c r) = lastByte r.
Proof.
  intros Hr. destruct r as [|d r]; [congruence|].
  unfold lastByte. cbn [String.length]. now rewrite !Nat.sub_succ, !Nat.sub_0_r.
Qed.

Lemma eof_error (s : scanner) :
  snd (eof s) = scanError -> err (fst (eof s)) <> None.
Proof.
  unfold eof. destruct (err s) eqn:Ee; cbn [fst snd].
  - intros _. now rewrite Ee.
  - destruct (endTop s); [discriminate|].
    destruct (endTop (fst (stepWith s " "))); [discriminate|].
    destruct (err (fst (stepWith s " "))) eqn:Ee'; cbn [fst snd err];
      intros _; [now rewrite Ee' | discriminate].
Qed.

Lemma checkValidFrom_nil_open (s : scanner) :
  wf s = true -> err s = None -> parseState s <> [] ->
  checkValidFrom s EmptyString <> None.
Proof.
  intros Hwf Herr Hopen. cbn [checkValidFrom].
  pose proof (eof_open s Hwf Herr Hopen) as Heof.
  pose proof (eof_error s Heof) as Hne.
  destruct (eof s) as [s' op]. cbn [fst snd] in *. now subst op.
Qed.

(** After an error nothing validates. *)
Lemma checkValidFrom_failed (s : scanner) (rest : string) :
  wf s = true -> err s <> None -> checkValidFrom s rest <> None.
Proof.
  intros Hwf Herr. destruct s as [st et ps [e|]]; [|now destruct Herr].
  unfold wf in Hwf. destruct st; try discriminate Hwf.
  destruct rest; discriminate.
Qed.

(** After the top-level value only white space validates. *)
Lemma after_top_only_space (rest : string) :
  forall s : scanner,
    wf s = true -> step s = stateEndTop ->
    checkValidFrom s rest = None ->
    rest = EmptyString \/ isSpace (lastByte rest) = true.
Proof.
  induction rest as [|c r IH]; intros s Hwf Hstep Hvalid; [now left|].
  right. rewrite checkValidFrom_cons in Hvalid.
  destruct (stepWith s c) as [s' op] eqn:Estep.
  pose proof (step_facts s s' c op Hwf Estep) as (Hwf' & _).
  destruct s as [st et ps er]. cbn in Hstep. subst st.
  unfold stepWith, doEndTop in Estep. cbn [step] in Estep.
  destruct (isSpace c) eqn:Esp; cbn [negb] in Estep;
    injection Estep as <- <-; cbn [opcode_eqb] in Hvalid.
  - destruct (IH _ Hwf' eq_refl Hvalid) as [->|Hr]; [exact Esp|].
    destruct r as [|d r]; [exact Esp|].
    now rewrite lastByte_cons.
  - now destruct (checkValidFrom_failed _ r Hwf').
Qed.

Lemma endTop_step (s : scanner) :
  wf s = true -> err s = None -> endTop s = true -> step s = stateEndTop.
Proof.
  destruct s as [st et ps er]. cbn. intros Hwf -> ->.
  unfold wf in Hwf. destruct st; cbn in Hwf; try discriminate Hwf;
    try reflexivity; now destruct ps.
Qed.

(** Inside a composite value whose last byte is not white space,
    [readValue] stops exactly at that byte, whatever follows. *)
Lemma scanBuffer_inside (body : string) :
  forall (s : scanner) (k : nat) (trailing : string),
    wf s = true -> err s = None -> parseState s <> [] ->
    checkValidFrom s body = None ->
    body <> EmptyString -> isSpace (lastByte body) = false ->
    scanBuffer s (body ++ trailing) k = complete (k + String.length body).
Proof.
  induction body as [|c rest IH];
    intros s k trailing Hwf Herr Hopen Hvalid Hne Hlast; [congruence|].
  cbn [append scanBuffer String.length].
  rewrite checkValidFrom_cons in Hvalid.
  destruct (stepWith s c) as [s' op] eqn:Estep.
  destruct (step_facts s s' c op Hwf Estep)
    as (Hwf' & Herror & Hkeep & Hend & Hclose & Hstack).
  assert (Hgo : op <> scanEnd -> op <> scanError -> parseState s' <> [] ->
            scanBuffer s' (rest ++ trailing) (S k)
            = complete (k + S (String.length rest))).
  { intros He Hr Hopen'.
    assert (Hv : checkValidFrom s' rest = None)
      by (destruct op; cbn [opcode_eqb] in Hvalid; congruence).
    assert (Hrest : rest <> EmptyString).
    { intros ->. exact (checkValidFrom_nil_open s' Hwf' (Hkeep Herr He Hr) Hopen' Hv). }
    rewrite (IH s' (S k) trailing Hwf' (Hkeep Herr He Hr) Hopen' Hv Hrest).
    - f_equal. lia.
    - now rewrite <- (lastByte_cons c rest Hrest). }
  assert (Hcl : op = scanEndObject \/ op = scanEndArray ->
            (let '(s'', op') := doEndValue s' " " in
             if opcode_eqb op' scanEnd then complete (S k)
             else scanBuffer s'' (rest ++ trailing) (S k))
            = complete (k + S (String.length rest))).
  { intros Hop. destruct (Hclose Hop) as [Hdo Htop]. rewrite Hdo.
    assert (He : op <> scanEnd) by (destruct Hop; subst op; discriminate).
    assert (Hr : op <> scanError) by (destruct Hop; subst op; discriminate).
    destruct (parseState s') as [|p ps] eqn:Eps; cbn [opcode_eqb].
    - assert (Hv : checkValidFrom s' rest = None)
        by (destruct Hop; subst op; exact Hvalid).
      pose proof (endTop_step s' Hwf' (Hkeep Herr He Hr) (Htop eq_refl)) as Hst.
      destruct (after_top_only_space rest s' Hwf' Hst Hv) as [->|Hsp].
      + f_equal. cbn. lia.
      + destruct rest as [|d rest]; [f_equal; cbn; lia|].
        rewrite lastByte_cons in Hlast by discriminate. congruence.
    - apply Hgo; [exact He | exact Hr | try rewrite Eps; discriminate]. }
  destruct op;
    try (apply Hgo; [discriminate | discriminate
                    | apply (Hstack Herr Hopen); discriminate]).
  - apply Hcl. now left.
  - apply Hcl. now right.
  - now destruct (Hopen (Hend Herr eq_refl)).
  - cbn [opcode_eqb] in Hvalid. now destruct (Herror eq_refl).
Qed.

Lemma stepWith_open_brace :
  stepWith reset "{"
  = (mkScanner stateBeginStringOrEmpty false [parseObjectKey] None,
     scanBeginObject).
Proof. reflexivity. Qed.

(** The first value of a stream that begins with a JSON object is that
    object: [readValue] stops at its closing brace, whatever bytes and
    whatever read error follow. *)
Lemma readValue_object (obj trailing : string) (failure : option error) :
  Valid obj = true ->
  Bytes.byteAt obj 0 = "{"%char -> lastByte obj = "}"%char ->
  readValue (io.mkReadCloser (obj ++ trailing) failure)
  = inl (String.length obj).
Proof.
  intros Hvalid Hfirst Hlast.
  destruct obj as [|c rest]; [discriminate Hfirst|].
  cbn in Hfirst. subst c.
  unfold Valid, checkValid in Hvalid.
  destruct (checkValidFrom reset (String "{" rest)) eqn:Ev; [discriminate|].
  rewrite checkValidFrom_cons, stepWith_open_brace in Ev.
  cbn [opcode_eqb] in Ev.
  set (s1 := mkScanner stateBeginStringOrEmpty false [parseObjectKey] None) in *.
  assert (Hrest : rest <> EmptyString).
  { intros ->. now apply (checkValidFrom_nil_open s1). }
  unfold readValue. cbn [io.delivered append scanBuffer].
  rewrite stepWith_open_brace. fold s1.
  rewrite (scanBuffer_inside rest s1 1 trailing); try easy.
  rewrite <- (lastByte_cons "{" rest Hrest), Hlast. reflexivity.
Qed.

Lemma Decode_object (obj trailing : string) (failure : option error) :
  Valid obj = true ->
  Bytes.byteAt obj 0 = "{"%char -> lastByte obj = "}"%char ->
  Decode (io.mkReadCloser (obj ++ trailing) failure) = unmarshal obj.
Proof.
  intros Hvalid Hfirst Hlast. unfold Decode.
  rewrite (readValue_object obj trailing failure Hvalid Hfirst Hlast).
  cbn [io.delivered]. now rewrite upto_append.
Qed.

End ScannerFacts.

(* ------------------------------------------------------------------ *)
(** ** Strings that are written as they are *)

Section PlainStrings.

Import json.

Lemma plainByte_facts (c : ascii) :
  plainByte c = true ->
  Ascii.eqb c Bytes.dquote = false /\ Ascii.eqb c "\" = false
  /\ (Bytes.code c <? 0x20)%N = false
  /\ (Bytes.code c <? utf8.RuneSelf)%N = true.
Proof.
  unfold plainByte. intros H.
  apply andb_prop in H as [H Hb]. apply andb_prop in H as [H Hq].
  apply andb_prop in H as [Hlo Hhi].
  apply negb_true_iff in Hb, Hq. apply N.leb_le in Hlo.
  repeat split; try assumption.
  apply N.ltb_ge. exact Hlo.
Qed.

Lemma stepWith_plain (s : scanner) (c : ascii) :
  step s = stateInString -> plainByte c = true ->
  stepWith s c = (s, scanContinue).
Proof.
  intros Hs Hc. destruct (plainByte_facts c Hc) as (Hq & Hb & Hlo & _).
  unfold stepWith. now rewrite Hs, Hq, Hb, Hlo.
Qed.

Lemma scanBuffer_plain (v rest : string) (s : scanner) (k : nat) :
  step s = stateInString -> plain v = true ->
  scanBuffer s (v ++ rest) k = scanBuffer s rest (k + String.length v).
Proof.
  intros Hs. revert k. induction v as [|c v IH]; intros k Hv.
  - cbn. now rewrite Nat.add_0_r.
  - cbn [plain] in Hv. apply andb_prop in Hv as [Hc Hv].
    cbn [append scanBuffer String.length].
    rewrite (stepWith_plain s c Hs Hc), (IH (S k) Hv). f_equal. lia.
Qed.

Lemma stringTail_plain (v rest : string) :
  plain v = true ->
  stringTail (v ++ String Bytes.dquote rest)
  = (v ++ Bytes.single Bytes.dquote, rest).
Proof.
  induction v as [|c v IH]; intros Hv; [reflexivity|].
  cbn [plain] in Hv. apply andb_prop in Hv as [Hc Hv].
  destruct (plainByte_facts c Hc) as (Hq & Hb & _).
  cbn [append stringTail]. now rewrite Hb, Hq, (IH Hv).
Qed.

Lemma plainPrefix_plain (v : string) (fuel : nat) :
  String.length v <= fuel -> plain v = true ->
  plainPrefix fuel v = String.length v.
Proof.
  revert fuel. induction v as [|c v IH]; intros fuel Hlen Hv.
  - now destruct fuel.
  - cbn [plain] in Hv. apply andb_prop in Hv as [Hc Hv].
    destruct (plainByte_facts c Hc) as (Hq & Hb & Hlo & Hhi).
    destruct fuel as [|fuel]; [cbn in Hlen; lia|].
    cbn [plainPrefix]. rewrite Hb, Hq, Hlo, Hhi. cbn [orb Bytes.from].
    rewrite IH; [reflexivity | cbn in Hlen; lia | exact Hv].
Qed.

Lemma byteAt_after (v r : string) (c : ascii) :
  Bytes.byteAt (v ++ String c r) (String.length v) = c.
Proof. induction v as [|d v IH]; [reflexivity | exact IH]. Qed.

Lemma unquoteBytes_plain (v : string) :
  plain v = true ->
  unquoteBytes (String Bytes.dquote (v ++ Bytes.single Bytes.dquote)) = Some v.
Proof.
  intros Hv. unfold unquoteBytes.
  assert (Hn : String.length (String Bytes.dquote (v ++ Bytes.single Bytes.dquote))
               = S (S (String.length v))).
  { cbn [String.length]. rewrite length_append. cbn. lia. }
  rewrite Hn.
  replace (S (S (String.length v)) - 1) with (S (String.length v)) by lia.
  replace (S (S (String.length v)) - 2) with (String.length v) by lia.
  change (Bytes.byteAt (String Bytes.dquote (v ++ Bytes.single Bytes.dquote)) 0)
    with Bytes.dquote.
  change (Bytes.byteAt (String Bytes.dquote (v ++ Bytes.single Bytes.dquote))
            (S (String.length v)))
    with (Bytes.byteAt (v ++ Bytes.single Bytes.dquote) (String.length v)).
  unfold Bytes.single at 1. rewrite byteAt_after.
  rewrite Ascii.eqb_refl. cbn [Nat.ltb Nat.leb negb orb Bytes.from].
  rewrite upto_append, (plainPrefix_plain v _ (le_n _) Hv), Nat.eqb_refl.
  reflexivity.
Qed.

End PlainStrings.

(* ------------------------------------------------------------------ *)
(** ** Flat objects: what the decoder leaves in the record *)

Section FlatObjects.

Import json.
















End FlatObjects.

(* ------------------------------------------------------------------ *)
(** ** The metadata version reader *)

(** The loop stops at the first entry that is not a directory and whose
    name ends in [mod.json]. *)
Lemma parseVersion_find (files : list zip.File) :
  parseVersion files =
  match List.find isMetadata files with
  | Some f => versionOf f
  | None => Done (EmptyString, Some MetadataNotFound)
  end.
Proof.
  induction files as [|f rest IH]; cbn [parseVersion List.find];
    [reflexivity|].
  unfold isMetadata at 1.
  destruct (zip.IsDir f); cbn [negb andb]; [exact IH|].
  destruct (strings.HasSuffix (zip.Name f) "mod.json"); [reflexivity | exact IH].
Qed.

Lemma parseVersionFromGeode_find
  (NewReader : string -> error + list zip.File) (geodeData : string)
  (files : list zip.File) (f : zip.File) :
  NewReader geodeData = inr files ->
  List.find isMetadata files = Some f ->
  parseVersionFromGeode NewReader geodeData = versionOf f.
Proof.
  intros Hzip Hfind. unfold parseVersionFromGeode.
  now rewrite Hzip, parseVersion_find, Hfind.
Qed.

(** C3, as stated, fails: the stream decoder reads the first JSON value
    only, so content that is not valid JSON as a whole is accepted when it
    begins with a complete value. *)
Lemma C3_counterexample :
  ~ (forall (NewReader : string -> error + list zip.File)
            (geodeData : string) (files : list zip.File) (f : zip.File)
            (rc : io.ReadCloser),
        NewReader geodeData = inr files ->
        List.find isMetadata files = Some f ->
        zip.Open f = inr rc ->
        json.Valid (io.delivered rc) = false ->
        exists cause,
          parseVersionFromGeode NewReader geodeData
          = Done (EmptyString, Some (MetadataCorrupt cause))).
Proof.
  intros H.
  pose (content := Sample.versionRecord (Bytes.quoted "1.0") ++ "garbage").
  destruct (H (fun _ => inr [Sample.fileEntry "mod.json" content]) "inner"
              [Sample.fileEntry "mod.json" content]
              (Sample.fileEntry "mod.json" content)
              (io.mkReadCloser content None)
              eq_refl eq_refl eq_refl eq_refl) as [cause Hc].
  vm_compute in Hc. discriminate Hc.
Qed.

(** C3, amended: when no prefix of the content of the matched metadata
    entry is a valid JSON text (the content does not begin with a complete
    JSON value), the reader fails with [MetadataCorrupt] and returns no
    version string. *)
Theorem C3_metadata_corrupt
  (NewReader : string -> error + list zip.File) (geodeData : string)
  (files : list zip.File) (f : zip.File) (rc : io.ReadCloser) :
  NewReader geodeData = inr files ->
  List.find isMetadata files = Some f ->
  zip.Open f = inr rc ->
  (forall n, json.Valid (Bytes.upto n (io.delivered rc)) = false) ->
  exists cause,
    parseVersionFromGeode NewReader geodeData
    = Done (EmptyString, Some (MetadataCorrupt cause)).
Proof.
  intros Hzip Hfind Hopen Hnone.
  rewrite (parseVersionFromGeode_find _ _ _ _ Hzip Hfind).
  unfold versionOf, json.Decode. rewrite Hopen.
  destruct (json.readValue rc) as [n|e] eqn:Eread.
  - apply readValue_valid in Eread. now rewrite Hnone in Eread.
  - now exists e.
Qed.

Lemma C3_metadata_corrupt_witness :
  exists cause,
    parseVersionFromGeode
      (Sample.reader [("inner", [Sample.fileEntry "mod.json" "{x"])]) "inner"
    = Done (EmptyString, Some (MetadataCorrupt cause)).
Proof.
  apply (C3_metadata_corrupt _ "inner"
           [Sample.fileEntry "mod.json" "{x"]
           (Sample.fileEntry "mod.json" "{x")
           (io.mkReadCloser "{x" None)); try reflexivity.
  intros [|[|[|n]]]; reflexivity.
Defined.

(** C4, as stated, fails when an earlier entry also matches: the reader
    stops at the first entry whose name ends in [mod.json], and a later
    entry with a good record is never read. *)
Lemma C4_counterexample :
  ~ (forall (NewReader : string -> error + list zip.File)
            (geodeData : string) (files : list zip.File) (f : zip.File)
            (rc : io.ReadCloser) (m : json.ModJSON),
        NewReader geodeData = inr files ->
        In f files -> zip.IsDir f = false ->
        strings.HasSuffix (zip.Name f) "mod.json" = true ->
        zip.Open f = inr rc ->
        json.Decode rc = Done (m, None) ->
        json.Version m <> EmptyString ->
        parseVersionFromGeode NewReader geodeData
        = Done (json.Version m, None)).
Proof.
  intros H.
  pose (good := Sample.versionRecord (Bytes.quoted "1.2.3")).
  pose (files := [Sample.fileEntry "about-mod.json" "{}";
                  Sample.fileEntry "assets/mod.json" good]).
  assert (Hc := H (fun _ => inr files) "inner" files
                  (Sample.fileEntry "assets/mod.json" good)
                  (io.mkReadCloser good None) (json.mkModJSON "1.2.3")
                  eq_refl (or_intror (or_introl eq_refl)) eq_refl eq_refl
                  eq_refl eq_refl).
  vm_compute in Hc. now specialize (Hc ltac:(discriminate)).
Qed.

(** C4, amended: when the first non-directory entry whose name ends in
    [mod.json] (in any directory) holds a record that decodes with a
    non-empty version field, the reader returns that string as it is. *)
Theorem C4_version_unmodified
  (NewReader : string -> error + list zip.File) (geodeData : string)
  (files : list zip.File) (f : zip.File) (rc : io.ReadCloser)
  (m : json.ModJSON) :
  NewReader geodeData = inr files ->
  List.find isMetadata files = Some f ->
  zip.Open f = inr rc ->
  json.Decode rc = Done (m, None) ->
  json.Version m <> EmptyString ->
  parseVersionFromGeode NewReader geodeData
  = Done (json.Version m, None).
Proof.
  intros Hzip Hfind Hopen Hdec Hne.
  rewrite (parseVersionFromGeode_find _ _ _ _ Hzip Hfind).
  unfold versionOf. rewrite Hopen, Hdec. cbn [andThen].
  destruct (json.Version m); [congruence | reflexivity].
Qed.

Lemma C4_version_unmodified_witness :
  parseVersionFromGeode
    (Sample.reader
       [("inner",
         [Sample.dirEntry "assets/";
          Sample.fileEntry "assets/mod.json"
            (Sample.versionRecord (Bytes.quoted "1.2.3"))])])
    "inner"
  = Done ("1.2.3", None).
Proof.
  apply (C4_version_unmodified _ "inner"
           [Sample.dirEntry "assets/";
            Sample.fileEntry "assets/mod.json"
              (Sample.versionRecord (Bytes.quoted "1.2.3"))]
           (Sample.fileEntry "assets/mod.json"
              (Sample.versionRecord (Bytes.quoted "1.2.3")))
           (io.mkReadCloser (Sample.versionRecord (Bytes.quoted "1.2.3")) None)
           (json.mkModJSON "1.2.3")); try reflexivity.
  discriminate.
Defined.




Example reader_of_flat_objects :
  List.map
    (fun ms =>
       parseVersionFromGeode
         (Sample.reader
            [("inner", [Sample.fileEntry "mod.json" (objectText ms)])])
         "inner")
    [[]; [("name", JString "x")]; [("version", JString EmptyString)];
     [("version", JNull)];
     [("version", JString "1"); ("version", JNull)];
     [("version", JString "1"); ("VERSION", JString "2")]]
  = [Done (EmptyString, Some MissingVersion);
     Done (EmptyString, Some MissingVersion);
     Done (EmptyString, Some MissingVersion);
     Done (EmptyString, Some MissingVersion);
     Done ("1", None);
     Done ("2", None)].
Proof. reflexivity. Qed.

(** C10, as stated, fails for a leading object whose version member is
    not a string: the object is valid JSON, and the reader fails with
    [MetadataCorrupt] on the type error. *)
Lemma C10_counterexample :
  ~ (forall (NewReader : string -> error + list zip.File)
            (geodeData : string) (files : list zip.File) (f : zip.File)
            (obj trailing : string),
        NewReader geodeData = inr files ->
        List.find isMetadata files = Some f ->
        zip.Open f = inr (io.mkReadCloser (obj ++ trailing) None) ->
        json.Valid obj = true ->
        Bytes.byteAt obj 0 = "{"%char -> lastByte obj = "}"%char ->
        (exists v, v <> EmptyString
                   /\ parseVersionFromGeode NewReader geodeData
                      = Done (v, None))
        \/ parseVersionFromGeode NewReader geodeData
           = Done (EmptyString, Some MissingVersion)).
Proof.
  intros H.
  pose (entry := zip.mkFile "mod.json" 0x031E 0x81A40000
                   (inr (io.mkReadCloser
                           (Sample.versionRecord "1" ++ "garbage") None))).
  destruct (H (fun _ => inr [entry]) "inner" [entry] entry
              (Sample.versionRecord "1") "garbage"
              eq_refl eq_refl eq_refl eq_refl eq_refl eq_refl)
    as [(v & _ & Hv) | Hm].
  - vm_compute in Hv. discriminate Hv.
  - vm_compute in Hm. discriminate Hm.
Qed.

(** C10, amended: the reader decodes the first JSON value only.  When the
    content of the matched metadata entry is a valid JSON object followed
    by arbitrary bytes, the trailing bytes, and a read error after them,
    are never looked at: the reader answers as it does for an entry that
    holds the object alone.  When that object decodes into the record
    without a type error, the answer is its version, or [MissingVersion]
    when that is empty. *)
Theorem C10_first_value_only
  (NewReader NewReader' : string -> error + list zip.File)
  (geodeData geodeData' : string) (files files' : list zip.File)
  (f f' : zip.File) (obj trailing : string) (failure : option error) :
  NewReader geodeData = inr files ->
  List.find isMetadata files = Some f ->
  zip.Open f = inr (io.mkReadCloser (obj ++ trailing) failure) ->
  NewReader' geodeData' = inr files' ->
  List.find isMetadata files' = Some f' ->
  zip.Open f' = inr (io.mkReadCloser obj None) ->
  json.Valid obj = true ->
  Bytes.byteAt obj 0 = "{"%char -> lastByte obj = "}"%char ->
  parseVersionFromGeode NewReader geodeData
  = parseVersionFromGeode NewReader' geodeData'
  /\ forall m, json.unmarshal obj = Done (m, None) ->
       parseVersionFromGeode NewReader geodeData
       = Done (if Bytes.isEmpty (json.Version m)
               then (EmptyString, Some MissingVersion)
               else (json.Version m, None)).
Proof.
  intros Hzip Hfind Hopen Hzip' Hfind' Hopen' Hvalid Hfirst Hlast.
  rewrite (parseVersionFromGeode_find _ _ _ _ Hzip Hfind),
    (parseVersionFromGeode_find _ _ _ _ Hzip' Hfind').
  unfold versionOf. rewrite Hopen, Hopen'.
  assert (Halone : json.Decode (io.mkReadCloser obj None) = json.unmarshal obj).
  { rewrite <- (append_nil_r obj) at 1. now apply Decode_object. }
  rewrite (Decode_object obj trailing failure Hvalid Hfirst Hlast), Halone.
  split; [reflexivity|].
  intros m Hdec. rewrite Hdec. cbn [andThen].
  now destruct (Bytes.isEmpty (json.Version m)).
Qed.

Lemma C10_first_value_only_witness :
  let wrong := Sample.versionRecord "1" in
  parseVersionFromGeode
    (Sample.reader
       [("inner", [Sample.fileEntry "mod.json" (wrong ++ "garbage")])])
    "inner"
  = parseVersionFromGeode
      (Sample.reader [("alone", [Sample.fileEntry "mod.json" wrong])])
      "alone"
  /\ forall m, json.unmarshal wrong = Done (m, None) ->
       parseVersionFromGeode
         (Sample.reader
            [("inner", [Sample.fileEntry "mod.json" (wrong ++ "garbage")])])
         "inner"
       = Done (if Bytes.isEmpty (json.Version m)
               then (EmptyString, Some MissingVersion)
               else (json.Version m, None)).
Proof.
  intros wrong.
  apply (C10_first_value_only _ _ "inner" "alone"
           [Sample.fileEntry "mod.json" (wrong ++ "garbage")]
           [Sample.fileEntry "mod.json" wrong]
           (Sample.fileEntry "mod.json" (wrong ++ "garbage"))
           (Sample.fileEntry "mod.json" wrong)
           wrong "garbage" None); reflexivity.
Defined.

Example reader_first_value_of_spec_example :
  parseVersionFromGeode
    (Sample.reader
       [("inner",
         [Sample.fileEntry "mod.json"
            (Sample.versionRecord (Bytes.quoted "1.0") ++ "garbage")])])
    "inner"
  = Done ("1.0", None).
Proof. reflexivity. Qed.

Example reader_spec_example :
  parseVersionFromGeode
    (Sample.reader
       [("inner",
         [Sample.fileEntry "assets/mod.json"
            (Sample.versionRecord (Bytes.quoted "1.2.3"))])])
    "inner"
  = Done ("1.2.3", None).
Proof. reflexivity. Qed.

Example reader_keeps_white_space :
  parseVersionFromGeode
    (Sample.reader
       [("inner",
         [Sample.fileEntry "mod.json"
            (Sample.versionRecord (Bytes.quoted " v1.2 "))])])
    "inner"
  = Done (" v1.2 ", None).
Proof. reflexivity. Qed.

Example reader_null_version :
  parseVersionFromGeode
    (Sample.reader
       [("inner", [Sample.fileEntry "mod.json" (Sample.versionRecord "null")])])
    "inner"
  = Done (EmptyString, Some MissingVersion).
Proof. reflexivity. Qed.

Example reader_key_in_capitals :
  parseVersionFromGeode
    (Sample.reader
       [("inner",
         [Sample.fileEntry "mod.json"
            ("{" ++ Bytes.quoted "Version" ++ ":" ++ Bytes.quoted "3.1" ++ "}")])])
    "inner"
  = Done ("3.1", None).
Proof. reflexivity. Qed.

Example reader_empty_version :
  parseVersionFromGeode
    (Sample.reader
       [("inner",
         [Sample.fileEntry "mod.json"
            (Sample.versionRecord (Bytes.quoted EmptyString))])])
    "inner"
  = Done (EmptyString, Some MissingVersion).
Proof. reflexivity. Qed.

(* ------------------------------------------------------------------ *)
(** ** The run/artifact selector *)

(** As long as every artifact carries the identifier of its run, the loop
    is a search for the first artifact named [Build Output] of the given
    run. *)
Lemma selectArtifact_find (arts : list github.Artifact.t) (runID : Z) :
  Forall (fun a => runIDOf a <> None) arts ->
  selectArtifact arts runID = Done (List.find (isBuildOutput runID) arts).
Proof.
  induction 1 as [|a rest Ha _ IH]; cbn [selectArtifact List.find];
    [reflexivity|].
  unfold isBuildOutput at 1. unfold runIDOf in *.
  destruct (github.Artifact.GetWorkflowRun a) as [run|]; [|congruence].
  destruct (github.ArtifactWorkflowRun.ID run) as [id|]; [|congruence].
  destruct (String.eqb (github.Artifact.GetName a) "Build Output"
            && (id =? runID)%Z); [reflexivity | exact IH].
Qed.

(** C7: when the list of completed runs is empty, the program ends with
    [NoRunsFound], and the listing of artifacts is not among the calls of
    the run. *)
Theorem C7_no_runs_found
  (goos : filepath.GOOS) (flags : Flags) (w : World) :
  Bytes.isEmpty (owner flags) = false ->
  Bytes.isEmpty (repo flags) = false ->
  Bytes.isEmpty (Getenv w "GITHUB_TOKEN") = false ->
  ListWorkflowRunsByFileName w (owner flags) (repo flags)
    (workflowFile flags) "completed" (branch flags) = inr [] ->
  snd (main goos flags w) = NoRunsFound (workflowFile flags) (branch flags)
  /\ forall o r, ~ In (CallListArtifacts o r) (fst (main goos flags w)).
Proof.
  intros Ho Hr Ht Hruns.
  unfold main, main_, selectBuildOutput, Run.call.
  rewrite Ho, Hr, Ht, Hruns. cbn.
  split; [reflexivity|].
  intros o r [H|[]]. discriminate H.
Qed.

Lemma C7_no_runs_found_witness :
  let w := Sample.world [] [Sample.artifact 5 "Build Output" 42]
             (Sample.versionRecord (Bytes.quoted "2.0.0")) in
  snd (main filepath.unix Sample.flags w)
  = NoRunsFound "multi-platform.yml" "main"
  /\ forall o r,
       ~ In (CallListArtifacts o r) (fst (main filepath.unix Sample.flags w)).
Proof.
  intros w.
  apply (C7_no_runs_found filepath.unix Sample.flags w); reflexivity.
Defined.

(** Where every artifact carries the identifier of its run, the selector
    takes the first run and selects the first artifact named
    [Build Output] whose run is that run; when no artifact of the whole
    list is such, it ends with [ArtifactNotFound]. *)
Lemma selectBuildOutput_with_run_ids
  (flags : Flags) (w : World)
  (latestRun : github.WorkflowRun.t) (older : list github.WorkflowRun.t)
  (arts : list github.Artifact.t) :
  ListWorkflowRunsByFileName w (owner flags) (repo flags)
    (workflowFile flags) "completed" (branch flags)
  = inr (latestRun :: older) ->
  ListArtifacts w (owner flags) (repo flags) = inr arts ->
  Forall (fun a => runIDOf a <> None) arts ->
  selectBuildOutput flags w
  = ([CallListWorkflowRunsByFileName (owner flags) (repo flags)
        (workflowFile flags) "completed" (branch flags);
      CallListArtifacts (owner flags) (repo flags)],
     match List.find (isBuildOutput (github.WorkflowRun.GetID latestRun)) arts
     with
     | Some artifact => inl artifact
     | None => inr ArtifactNotFound
     end).
Proof.
  intros Hruns Harts Hids.
  unfold selectBuildOutput, Run.call. rewrite Hruns, Harts. cbn.
  rewrite (selectArtifact_find arts _ Hids).
  now destruct (List.find _ arts).
Qed.

Example selectBuildOutput_of_two_runs :
  selectBuildOutput Sample.flags
    (Sample.world [Sample.run42; github.WorkflowRun.mk (Some 41%Z) None]
       [Sample.artifact 1 "logs" 42;
        Sample.artifact 2 "Build Output" 41;
        Sample.artifact 3 "Build Output" 42;
        Sample.artifact 4 "Build Output" 42]
       (Sample.versionRecord (Bytes.quoted "2.0.0")))
  = ([CallListWorkflowRunsByFileName "octo" "mod" "multi-platform.yml"
        "completed" "main";
      CallListArtifacts "octo" "mod"],
     inl (Sample.artifact 3 "Build Output" 42)).
Proof. reflexivity. Qed.

(** C8: the selector does not select the first artifact named
    [Build Output] of the latest run, and does not end with
    [ArtifactNotFound] when there is none, once the scan meets an artifact
    without a workflow run: [*a.GetWorkflowRun().ID] is dereferenced for
    every artifact the loop looks at, as an operand of [debugf] and in the
    test, where the sibling reads go through the nil-safe accessors
    [GetID] and [GetName]; the program panics. *)
Theorem C8_selector_panics :
  let orphan := github.Artifact.mk (Some 9%Z) (Some "orphan") None in
  let build := Sample.artifact 3 "Build Output" 42 in
  let logs := Sample.artifact 1 "logs" 42 in
  let calls :=
    [CallListWorkflowRunsByFileName "octo" "mod" "multi-platform.yml"
       "completed" "main";
     CallListArtifacts "octo" "mod"] in
  let panic :=
    Panicked "invalid memory address or nil pointer dereference" in
  (List.find (isBuildOutput (github.WorkflowRun.GetID Sample.run42))
     [orphan; build] = Some build
   /\ selectBuildOutput Sample.flags
        (Sample.world [Sample.run42] [orphan; build]
           (Sample.versionRecord (Bytes.quoted "2.0.0")))
      = (calls, inr panic))
  /\ (List.find (isBuildOutput (github.WorkflowRun.GetID Sample.run42))
        [logs; orphan] = None
      /\ selectBuildOutput Sample.flags
           (Sample.world [Sample.run42] [logs; orphan]
              (Sample.versionRecord (Bytes.quoted "2.0.0")))
         = (calls, inr panic)).
Proof. cbv zeta. repeat split; reflexivity. Qed.

(* ------------------------------------------------------------------ *)
(** ** The tag name *)

(** A format without a percent sign is written as it is. *)
Lemma doPrintf_no_percent (s : string) :
  forall fuel, String.length s <= fuel -> hasPercent s = false ->
               fmt.doPrintf fuel s = s.
Proof.
  induction s as [|c s IH]; intros [|fuel] Hlen Hno; cbn in *;
    try reflexivity; try lia.
  apply orb_false_elim in Hno as [Hc Hs].
  rewrite Hc, IH; [reflexivity | lia | exact Hs].
Qed.

Lemma Sprintf_no_percent (version : string) :
  hasPercent version = false -> fmt.Sprintf version = version.
Proof. intros H. apply doPrintf_no_percent; [apply le_n | exact H]. Qed.

(** In every run, each name given to a tag, a tag reference or a release
    is made from [fmt.Sprintf(version)] for the version the reader has
    returned. *)
Lemma names_of_run
  (goos : filepath.GOOS) (flags : Flags) (w : World) (n : string) :
  In n (List.flat_map namesGiven (fst (main goos flags w))) ->
  exists geodeData version,
    parseVersionFromGeode (NewReader w) geodeData = Done (version, None)
    /\ In n [fmt.Sprintf version;
             "refs/tags/" ++ fmt.Sprintf version;
             "Release " ++ fmt.Sprintf version].
Proof.
  unfold main, main_, selectBuildOutput, download, copyBody, Run.call,
    Run.call_,
    Run.orFatal, Run.check, Run.emit, Run.exit, Run.ret, Run.bind.
  intros H.
  repeat match type of H with
    | context [match ?x with _ => _ end] =>
        lazymatch x with
        | context [match _ with _ => _ end] => fail
        | _ => destruct x eqn:?
        end;
        cbn [fst snd app List.flat_map namesGiven In] in H
    end.
  all: try tauto.
  all: match goal with
       | Hp : parseVersionFromGeode _ ?d = Done (?v, None) |- _ =>
           exists d, v; split; [exact Hp|]
       end.
  all: cbn [newTag newRelease github.Tag.Tag github.Reference.Ref
              github.RepositoryRelease.TagName github.RepositoryRelease.Name
              fmt.Sprintf_s] in *.
  all: repeat match goal with
         | Hx : Some _ = Some _ |- _ => injection Hx as <-
         | Hx : Some _ = None |- _ => discriminate Hx
         end.
  all: cbn [In] in *; intuition (subst; auto).
Qed.

(** For a version without a percent sign the names are made from the
    version itself. *)
Corollary names_of_run_without_percent
  (goos : filepath.GOOS) (flags : Flags) (w : World) (n : string) :
  (forall geodeData version,
     parseVersionFromGeode (NewReader w) geodeData = Done (version, None) ->
     hasPercent version = false) ->
  In n (List.flat_map namesGiven (fst (main goos flags w))) ->
  exists geodeData version,
    parseVersionFromGeode (NewReader w) geodeData = Done (version, None)
    /\ In n [version; "refs/tags/" ++ version; "Release " ++ version].
Proof.
  intros Hno Hn.
  destruct (names_of_run goos flags w n Hn) as (d & v & Hp & Hin).
  exists d, v. split; [exact Hp|].
  now rewrite (Sprintf_no_percent v (Hno d v Hp)) in Hin.
Qed.

(** C1: for the version [1.0%] the tag, the tag reference and the release
    are not named by the version: [fmt.Sprintf(version)] takes the version
    for a format, and the names are made from [1.0%!(NOVERB)]. *)
Theorem C1_tag_name_formatted :
  let w := Sample.world [Sample.run42] [Sample.artifact 5 "Build Output" 42]
             (Sample.versionRecord (Bytes.quoted "1.0%")) in
  parseVersionFromGeode (NewReader w) "inner" = Done ("1.0%", None)
  /\ snd (main filepath.unix Sample.flags w) = ExitSuccess
  /\ List.flat_map namesGiven (fst (main filepath.unix Sample.flags w))
     = ["1.0%!(NOVERB)"; "refs/tags/1.0%!(NOVERB)";
        "1.0%!(NOVERB)"; "Release 1.0%!(NOVERB)"].
Proof. repeat split; vm_compute; reflexivity. Qed.

Example pipeline_spec_example :
  let w := Sample.world [Sample.run42] [Sample.artifact 5 "Build Output" 42]
             (Sample.versionRecord (Bytes.quoted "2.0.0")) in
  snd (main filepath.unix Sample.flags w) = ExitSuccess
  /\ List.flat_map namesGiven (fst (main filepath.unix Sample.flags w))
     = ["2.0.0"; "refs/tags/2.0.0"; "2.0.0"; "Release 2.0.0"]
  /\ In (CallUploadReleaseAsset "octo" "mod" 7 "mod-final.geode"
           "/tmp/mod-*.geode")
        (fst (main filepath.unix Sample.flags w)).
Proof. repeat split; vm_compute; try reflexivity. tauto. Qed.

(* ------------------------------------------------------------------ *)
(** ** [fmt.Sprintf] on sample formats *)

Example Sprintf_plain : fmt.Sprintf "2.0.0" = "2.0.0".
Proof. reflexivity. Qed.

Example Sprintf_percent_at_end : fmt.Sprintf "1.0%" = "1.0%!(NOVERB)".
Proof. reflexivity. Qed.

Example Sprintf_double_percent : fmt.Sprintf "50%%" = "50%".
Proof. reflexivity. Qed.

Example Sprintf_dot_at_end : fmt.Sprintf "1.0%." = "1.0%!.(MISSING)".
Proof. reflexivity. Qed.

Example Sprintf_precision_at_end : fmt.Sprintf "1.0%.5" = "1.0%!(NOVERB)".
Proof. reflexivity. Qed.

Example Sprintf_missing : fmt.Sprintf "1.0-%d" = "1.0-%!d(MISSING)".
Proof. reflexivity. Qed.

Example Sprintf_bad_index : fmt.Sprintf "%[1]d!" = "%!d(BADINDEX)!".
Proof. reflexivity. Qed.

Example Sprintf_bad_width : fmt.Sprintf "%*d" = "%!(BADWIDTH)%!d(MISSING)".
Proof. reflexivity. Qed.

(* ================================================================== *)
(** * Further properties of the code *)

(* ------------------------------------------------------------------ *)
(** ** The locator: which entry decides, and what comes back *)

Lemma find_first_match {A : Type} (p : A -> bool) (before after : list A)
  (x : A) :
  (forall y, In y before -> p y = false) -> p x = true ->
  List.find p (before ++ x :: after)%list = Some x.
Proof.
  intros Hbefore Hx. induction before as [|y before IH]; cbn.
  - now rewrite Hx.
  - rewrite (Hbefore y (or_introl eq_refl)).
    apply IH. intros z Hz. apply Hbefore. now right.
Qed.

(** X1: the answer of the locator is decided by the first entry whose name ends
    in [.geode]: the entries after it are not looked at, so an unreadable
    first match fails the call even when a readable module file follows. *)
Theorem locator_first_match_decides
  (NewReader : string -> error + list zip.File) (os : filepath.GOOS)
  (zipData : string) (before after : list zip.File) (f : zip.File) :
  NewReader zipData = inr (before ++ f :: after)%list ->
  (forall g, In g before -> strings.HasSuffix (zip.Name g) ".geode" = false) ->
  strings.HasSuffix (zip.Name f) ".geode" = true ->
  extractGeodeFileFromZip NewReader os zipData = located os f.
Proof.
  intros Hzip Hbefore Hf. unfold extractGeodeFileFromZip. rewrite Hzip.
  rewrite extractGeodeFile_find.
  now rewrite (find_first_match isModule before after f Hbefore Hf).
Qed.

Lemma locator_first_match_decides_witness :
  extractGeodeFileFromZip
    (Sample.reader
       [("outer",
         [Sample.fileEntry "a.txt" "x";
          zip.mkFile "one.geode" 0x031E 0x81A40000
            (inl (foreign "zip: unsupported compression algorithm"));
          Sample.fileEntry "two.geode" "inner"])])
    filepath.unix "outer"
  = (EmptyString, EmptyString,
     Some (wrapError "failed to open .geode file inside zip: "
             (foreign "zip: unsupported compression algorithm"))).
Proof.
  apply (locator_first_match_decides _ filepath.unix "outer"
           [Sample.fileEntry "a.txt" "x"]
           [Sample.fileEntry "two.geode" "inner"]
           (zip.mkFile "one.geode" 0x031E 0x81A40000
              (inl (foreign "zip: unsupported compression algorithm")))).
  - reflexivity.
  - intros g [<-|[]]. reflexivity.
  - reflexivity.
Defined.

(** X2: every failure of the locator comes with no content and no filename:
    a corrupt archive, a module entry that cannot be opened or read, and no
    module entry at all. *)
Theorem locator_failure_returns_nothing
  (NewReader : string -> error + list zip.File) (os : filepath.GOOS)
  (zipData data name : string) (err : error) :
  extractGeodeFileFromZip NewReader os zipData = (data, name, Some err) ->
  data = EmptyString /\ name = EmptyString.
Proof.
  unfold extractGeodeFileFromZip.
  destruct (NewReader zipData) as [e|files].
  - intros H. injection H as <- <- _. now split.
  - rewrite extractGeodeFile_find.
    destruct (List.find isModule files) as [f|].
    + unfold located. destruct (zip.Open f) as [e|rc].
      * intros H. injection H as <- <- _. now split.
      * destruct (io.failure rc); [|discriminate].
        intros H. injection H as <- <- _. now split.
    + intros H. injection H as <- <- _. now split.
Qed.

Lemma locator_failure_returns_nothing_witness :
  EmptyString = EmptyString /\ EmptyString = EmptyString.
Proof.
  apply (locator_failure_returns_nothing
           (fun _ => inl (foreign "zip: not a valid zip file"))
           filepath.unix "junk" EmptyString EmptyString
           (CorruptArchive (foreign "zip: not a valid zip file"))).
  reflexivity.
Defined.

Lemma hasSlash_append (a b : string) :
  hasSlash (a ++ b) = hasSlash a || hasSlash b.
Proof.
  induction a as [|c a IH]; cbn; [reflexivity|].
  now rewrite IH, orb_assoc.
Qed.

Lemma lastComponent_no_slash (s : string) : hasSlash (lastComponent s) = false.
Proof.
  destruct (split_last_slash s) as [Hno | (d & b & -> & Hb)].
  - unfold lastComponent. now rewrite (components_no_slash s Hno).
  - now rewrite (lastComponent_after_slash d b Hb).
Qed.

Lemma lastComponent_keeps_suffix (p t : string) :
  hasSlash t = false -> exists q, lastComponent (p ++ t) = q ++ t.
Proof.
  intros Ht. destruct (split_last_slash p) as [Hno | (d & b & -> & Hb)].
  - exists p. unfold lastComponent.
    rewrite components_no_slash; [reflexivity|].
    now rewrite hasSlash_append, Hno, Ht.
  - exists b. rewrite append_assoc. cbn [append].
    apply lastComponent_after_slash.
    now rewrite hasSlash_append, Hb, Ht.
Qed.

(** X3: where the slash is the only separator, the filename the locator
    returns with a module is a plain file name: it is not empty, it has no
    slash in it, and it still ends in [.geode]. *)
Theorem locator_filename_is_plain
  (NewReader : string -> error + list zip.File)
  (zipData data name : string) :
  extractGeodeFileFromZip NewReader filepath.unix zipData = (data, name, None) ->
  name <> EmptyString /\ hasSlash name = false
  /\ strings.HasSuffix name ".geode" = true.
Proof.
  unfold extractGeodeFileFromZip.
  destruct (NewReader zipData) as [e|files]; [discriminate|].
  rewrite extractGeodeFile_find.
  destruct (List.find isModule files) as [f|] eqn:Efind; [|discriminate].
  unfold located. destruct (zip.Open f) as [e|rc]; [discriminate|].
  destruct (io.failure rc); [discriminate|].
  intros H. injection H as _ <-.
  apply List.find_some in Efind as [_ Hmod]. unfold isModule in Hmod.
  destruct (module_name_shape _ Hmod) as [Hne Hlast].
  rewrite (Base_unix_lastComponent _ Hne Hlast).
  apply HasSuffix_iff in Hmod as [p Hp].
  destruct (lastComponent_keeps_suffix p ".geode" eq_refl) as [q Hq].
  rewrite Hp, Hq. repeat split.
  - now destruct q.
  - rewrite <- Hq. apply lastComponent_no_slash.
  - apply HasSuffix_iff. now exists q.
Qed.

Lemma locator_filename_is_plain_witness :
  "mod-v1.geode" <> EmptyString /\ hasSlash "mod-v1.geode" = false
  /\ strings.HasSuffix "mod-v1.geode" ".geode" = true.
Proof.
  apply (locator_filename_is_plain
           (Sample.reader
              [("outer", [Sample.fileEntry "a.txt" "x";
                          Sample.fileEntry "build/deep/mod-v1.geode" "inner"])])
           "outer" "inner" "mod-v1.geode").
  reflexivity.
Defined.

(* ------------------------------------------------------------------ *)
(** ** The reader: directories, absence, and what comes back *)

(** X4: directory entries play no part in the reader: taking them out of the
    module archive leaves its answer as it is, whatever their names. *)
Theorem reader_ignores_directories
  (NewReader NewReader' : string -> error + list zip.File)
  (geodeData geodeData' : string) (files : list zip.File) :
  NewReader geodeData = inr files ->
  NewReader' geodeData'
  = inr (List.filter (fun f => negb (zip.IsDir f)) files) ->
  parseVersionFromGeode NewReader' geodeData'
  = parseVersionFromGeode NewReader geodeData.
Proof.
  intros Hzip Hzip'. unfold parseVersionFromGeode. rewrite Hzip, Hzip'.
  clear. induction files as [|f rest IH]; [reflexivity|].
  cbn [List.filter parseVersion].
  destruct (zip.IsDir f) eqn:Edir; cbn [negb]; [exact IH|].
  cbn [parseVersion]. rewrite Edir.
  destruct (strings.HasSuffix (zip.Name f) "mod.json"); [reflexivity | exact IH].
Qed.

Lemma reader_ignores_directories_witness :
  parseVersionFromGeode
    (Sample.reader
       [("plain",
         [Sample.fileEntry "mod.json"
            (Sample.versionRecord (Bytes.quoted "1.2.3"))])])
    "plain"
  = parseVersionFromGeode
      (Sample.reader
         [("inner",
           [Sample.dirEntry "old/mod.json";
            Sample.fileEntry "mod.json"
              (Sample.versionRecord (Bytes.quoted "1.2.3"))])])
      "inner".
Proof.
  apply (reader_ignores_directories _ _ "inner" "plain"
           [Sample.dirEntry "old/mod.json";
            Sample.fileEntry "mod.json"
              (Sample.versionRecord (Bytes.quoted "1.2.3"))]);
    reflexivity.
Defined.

(** X5: a module archive in which every entry is a directory or has a name that
    does not end in [mod.json] makes the reader fail with
    [MetadataNotFound]. *)
Theorem reader_metadata_not_found
  (NewReader : string -> error + list zip.File) (geodeData : string)
  (files : list zip.File) :
  NewReader geodeData = inr files ->
  (forall f, In f files ->
             zip.IsDir f = true
             \/ strings.HasSuffix (zip.Name f) "mod.json" = false) ->
  parseVersionFromGeode NewReader geodeData
  = Done (EmptyString, Some MetadataNotFound).
Proof.
  intros Hzip Hnone. unfold parseVersionFromGeode. rewrite Hzip. clear Hzip.
  induction files as [|f rest IH]; [reflexivity|].
  cbn [parseVersion].
  assert (Hrest : parseVersion rest = Done (EmptyString, Some MetadataNotFound))
    by (apply IH; intros g Hg; apply Hnone; now right).
  destruct (Hnone f (or_introl eq_refl)) as [Hd|Hs].
  - now rewrite Hd.
  - rewrite Hs. now destruct (zip.IsDir f).
Qed.

Lemma reader_metadata_not_found_witness :
  parseVersionFromGeode
    (Sample.reader
       [("inner",
         [Sample.dirEntry "mod.json";
          Sample.fileEntry "mod.json.bak" "{}";
          Sample.fileEntry "logo.png" "x"])])
    "inner"
  = Done (EmptyString, Some MetadataNotFound).
Proof.
  apply (reader_metadata_not_found _ "inner"
           [Sample.dirEntry "mod.json";
            Sample.fileEntry "mod.json.bak" "{}";
            Sample.fileEntry "logo.png" "x"]).
  - reflexivity.
  - intros f [<-|[<-|[<-|[]]]]; [now left | now right | now right].
Defined.

(** X6: when the reader returns, it returns either a version that is not empty
    and no error, or an error and the empty string: never both, never
    neither. *)
Theorem reader_version_or_error
  (NewReader : string -> error + list zip.File) (geodeData : string)
  (version : string) (err : option error) :
  parseVersionFromGeode NewReader geodeData = Done (version, err) ->
  (err = None /\ version <> EmptyString)
  \/ (err <> None /\ version = EmptyString).
Proof.
  unfold parseVersionFromGeode.
  destruct (NewReader geodeData) as [e|files].
  - intros H. injection H as <- <-. right. now split.
  - rewrite parseVersion_find.
    destruct (List.find isMetadata files) as [f|].
    + unfold versionOf. destruct (zip.Open f) as [e|rc].
      * intros H. injection H as <- <-. right. now split.
      * destruct (json.Decode rc) as [[decoded [e|]]|msg]; cbn [andThen].
        -- intros H. injection H as <- <-. right. now split.
        -- destruct (json.Version decoded) as [|c v] eqn:Ev;
             cbn [Bytes.isEmpty]; intros H; injection H as <- <-.
           ++ right. now split.
           ++ left. now split.
        -- discriminate.
    + intros H. injection H as <- <-. right. now split.
Qed.

Lemma reader_version_or_error_witness :
  (Some MissingVersion = None /\ EmptyString <> EmptyString)
  \/ (Some MissingVersion <> None /\ EmptyString = EmptyString).
Proof.
  apply (reader_version_or_error
           (Sample.reader [("inner", [Sample.fileEntry "mod.json" "{}"])])
           "inner" EmptyString (Some MissingVersion)).
  reflexivity.
Defined.

(* ------------------------------------------------------------------ *)
(** ** The reader on a metadata entry without a value *)

Lemma scanBuffer_only_space (data : string) (n : nat) :
  json.nonSpace data = false ->
  json.scanBuffer json.reset data n = json.exhausted json.reset.
Proof.
  revert n. induction data as [|c rest IH]; intros n H; [reflexivity|].
  cbn [json.nonSpace] in H. apply orb_false_elim in H as [Hc Hrest].
  apply negb_false_iff in Hc.
  cbn [json.scanBuffer]. unfold json.stepWith, json.doBeginValue.
  cbn [json.step json.reset]. rewrite Hc. now apply IH.
Qed.

(** X7: a metadata entry that is empty, or holds nothing but white space, makes
    the reader fail with [MetadataCorrupt]: the cause is [io.EOF], or the
    read error of the entry when reading it fails. *)
Theorem reader_blank_metadata
  (NewReader : string -> error + list zip.File) (geodeData : string)
  (files : list zip.File) (f : zip.File) (blank : string)
  (failure : option error) :
  NewReader geodeData = inr files ->
  List.find isMetadata files = Some f ->
  zip.Open f = inr (io.mkReadCloser blank failure) ->
  json.nonSpace blank = false ->
  parseVersionFromGeode NewReader geodeData
  = Done (EmptyString,
          Some (MetadataCorrupt
                  match failure with Some e => e | None => EOF end)).
Proof.
  intros Hzip Hfind Hopen Hblank.
  rewrite (parseVersionFromGeode_find _ _ _ _ Hzip Hfind).
  unfold versionOf, json.Decode, json.readValue. rewrite Hopen.
  cbn [io.delivered io.failure].
  rewrite (scanBuffer_only_space blank 0 Hblank), Hblank.
  now destruct failure.
Qed.

Lemma reader_blank_metadata_witness :
  parseVersionFromGeode
    (Sample.reader [("inner", [Sample.fileEntry "mod.json" "  "])]) "inner"
  = Done (EmptyString, Some (MetadataCorrupt EOF)).
Proof.
  apply (reader_blank_metadata _ "inner"
           [Sample.fileEntry "mod.json" "  "]
           (Sample.fileEntry "mod.json" "  ") "  " None); reflexivity.
Defined.

(* ------------------------------------------------------------------ *)
(** ** The pipeline: order, names and clean-up *)

Ltac unfold_run :=
  unfold main, main_, selectBuildOutput, download, copyBody, Run.call,
    Run.call_,
    Run.orFatal, Run.check, Run.emit, Run.exit, Run.ret, Run.bind.

(** Case analysis on every answer of the world, the innermost first. *)
Ltac case_run :=
  repeat match goal with
    | |- context [match ?x with _ => _ end] =>
        lazymatch x with
        | context [match _ with _ => _ end] => fail
        | _ => destruct x eqn:?
        end;
        cbn [fst snd app]
    end.

Ltac case_in H :=
  cbn [In] in H;
  repeat match type of H with
    | _ \/ _ => destruct H as [H|H]
    end;
  try discriminate H; try contradiction.

(** X8: the calls a run makes to the hosting service are an initial part of
    the pipeline: run listing, artifact listing, download URL, branch
    reference, tag, tag reference, release, asset upload, each at most once
    and none before the one that precedes it; a run that ends well has made
    all eight. *)
Theorem remote_calls_in_pipeline_order
  (goos : filepath.GOOS) (flags : Flags) (w : World) :
  exists k, k <= 8
    /\ remoteSteps (fst (main goos flags w)) = List.seq 0 k
    /\ (snd (main goos flags w) = ExitSuccess -> k = 8).
Proof.
  unfold_run. case_run.
  all: cbn [remoteSteps List.flat_map remoteStep app fst snd].
  all: first
         [ exists 0; repeat split; [lia | discriminate]
         | exists 1; repeat split; [lia | discriminate]
         | exists 2; repeat split; [lia | discriminate]
         | exists 3; repeat split; [lia | discriminate]
         | exists 4; repeat split; [lia | discriminate]
         | exists 5; repeat split; [lia | discriminate]
         | exists 6; repeat split; [lia | discriminate]
         | exists 7; repeat split; [lia | discriminate]
         | exists 8; repeat split; lia ].
Qed.

(** X9: a run that ends in [log.Fatal] or [log.Fatalf] removes no temporary
    file: the process exits at once and the deferred removals do not run.
    A run that ends well makes exactly two removals, and they are its last
    two events: the module file first, then the artifact file. *)
Theorem temporary_files_removed_only_on_success
  (goos : filepath.GOOS) (flags : Flags) (w : World) :
  (forall msg cause name,
      snd (main goos flags w) = Fatal msg cause ->
      ~ In (CallRemove name) (fst (main goos flags w)))
  /\ (snd (main goos flags w) = ExitSuccess ->
      exists calls tmpfile tmpZipFile,
        CreateTemp w "mod-*.geode" = inr tmpfile
        /\ CreateTemp w "artifact-*.zip" = inr tmpZipFile
        /\ fst (main goos flags w)
           = (calls ++ [CallRemove tmpfile; CallRemove tmpZipFile])%list
        /\ forall name, ~ In (CallRemove name) calls).
Proof.
  unfold_run. case_run.
  all: split; [intros ? ? ? Hexit Hin | intros Hexit];
    try discriminate Hexit.
  all: try (case_in Hin).
  all: match goal with
       | |- exists calls t1 t2, _ /\ _ /\ ?tr = _ /\ _ =>
           exists (List.removelast (List.removelast tr))
       end.
  all: eexists _, _; split; [reflexivity|]; split; [reflexivity|];
    split; [reflexivity|].
  all: cbn [List.removelast app]; intros name Hin; case_in Hin.
Qed.

Lemma temporary_files_removed_only_on_success_witness :
  let w := Sample.world [Sample.run42] [Sample.artifact 5 "Build Output" 42]
             (Sample.versionRecord (Bytes.quoted "2.0.0")) in
  exists calls tmpfile tmpZipFile,
    CreateTemp w "mod-*.geode" = inr tmpfile
    /\ CreateTemp w "artifact-*.zip" = inr tmpZipFile
    /\ fst (main filepath.unix Sample.flags w)
       = (calls ++ [CallRemove tmpfile; CallRemove tmpZipFile])%list
    /\ forall name, ~ In (CallRemove name) calls.
Proof.
  intros w.
  apply (proj2 (temporary_files_removed_only_on_success filepath.unix
                  Sample.flags w)).
  reflexivity.
Defined.

Ltac same_event H :=
  case_in H; injection H as; subst.

(** X10: the tag object of a run points at the commit the branch reference
    names when the run asks for it, with the type [commit]; its name is
    made from the version by [fmt.Sprintf], its message from the version
    as it is. *)
Theorem tag_targets_branch_head
  (goos : filepath.GOOS) (flags : Flags) (w : World)
  (o r : string) (tag : github.Tag.t) :
  In (CallCreateTag o r tag) (fst (main goos flags w)) ->
  exists ref geodeData version,
    GetRef w (owner flags) (repo flags) ("refs/heads/" ++ branch flags)
    = inr ref
    /\ parseVersionFromGeode (NewReader w) geodeData = Done (version, None)
    /\ github.Tag.ObjectSHA tag = Some (github.Reference.GetObjectSHA ref)
    /\ github.Tag.ObjectType tag = Some "commit"
    /\ github.Tag.Tag tag = Some (fmt.Sprintf version)
    /\ github.Tag.Message tag = Some ("Tag for version " ++ version).
Proof.
  revert o r tag. unfold_run. case_run.
  all: intros ? ? ? Hin; same_event Hin.
  all: eexists _, _, _; split; [reflexivity|]; split; [eassumption|];
    repeat split.
Qed.

Lemma tag_targets_branch_head_witness :
  let w := Sample.world [Sample.run42] [Sample.artifact 5 "Build Output" 42]
             (Sample.versionRecord (Bytes.quoted "2.0.0")) in
  exists ref geodeData version,
    GetRef w "octo" "mod" "refs/heads/main" = inr ref
    /\ parseVersionFromGeode (NewReader w) geodeData = Done (version, None)
    /\ Some "0123abc" = Some (github.Reference.GetObjectSHA ref)
    /\ Some "commit" = Some "commit"
    /\ Some "2.0.0" = Some (fmt.Sprintf version)
    /\ Some "Tag for version 2.0.0" = Some ("Tag for version " ++ version).
Proof.
  intros w.
  apply (tag_targets_branch_head filepath.unix Sample.flags w "octo" "mod"
           (github.Tag.mk (Some "2.0.0") None (Some "Tag for version 2.0.0")
              (Some "commit") (Some "0123abc") (Some "GitHub Actions Bot")
              (Some "actions@github.com"))).
  vm_compute. repeat (first [left; reflexivity | right]).
Defined.

(** X11: the tag reference of a run is made only for a tag object the run has
    created: it is [refs/tags/] followed by the name of that tag, and it
    points at the object the hosting service answered for it. *)
Theorem tag_reference_follows_tag
  (goos : filepath.GOOS) (flags : Flags) (w : World)
  (o r : string) (ref : github.Reference.t) :
  In (CallCreateRef o r ref) (fst (main goos flags w)) ->
  exists tag created name,
    In (CallCreateTag o r tag) (fst (main goos flags w))
    /\ CreateTag w o r tag = inr created
    /\ github.Tag.Tag tag = Some name
    /\ github.Reference.Ref ref = Some ("refs/tags/" ++ name)
    /\ github.Reference.ObjectSHA ref = github.Tag.SHA created.
Proof.
  revert o r ref. unfold_run. case_run.
  all: intros ? ? ? Hin; same_event Hin.
  all: eexists _, _, _; split; [cbn [In]; tauto|];
    split; [eassumption|]; repeat split.
Qed.

Lemma tag_reference_follows_tag_witness :
  let w := Sample.world [Sample.run42] [Sample.artifact 5 "Build Output" 42]
             (Sample.versionRecord (Bytes.quoted "2.0.0")) in
  exists tag created name,
    In (CallCreateTag "octo" "mod" tag) (fst (main filepath.unix Sample.flags w))
    /\ CreateTag w "octo" "mod" tag = inr created
    /\ github.Tag.Tag tag = Some name
    /\ Some "refs/tags/2.0.0" = Some ("refs/tags/" ++ name)
    /\ Some "feedbee" = github.Tag.SHA created.
Proof.
  intros w.
  apply (tag_reference_follows_tag filepath.unix Sample.flags w "octo" "mod"
           (github.Reference.mk (Some "refs/tags/2.0.0") (Some "feedbee"))).
  vm_compute. repeat (first [left; reflexivity | right]).
Defined.

(** X12: the release of a run is made only in a run that has made the tag
    and, without error, its reference: it carries the name of the tag as
    its tag name, and [Release ] followed by that name as its title. *)
Theorem release_follows_tag
  (goos : filepath.GOOS) (flags : Flags) (w : World)
  (o r : string) (release : github.RepositoryRelease.t) :
  In (CallCreateRelease o r release) (fst (main goos flags w)) ->
  exists tag ref name,
    In (CallCreateTag o r tag) (fst (main goos flags w))
    /\ In (CallCreateRef o r ref) (fst (main goos flags w))
    /\ CreateRef w o r ref = None
    /\ github.Tag.Tag tag = Some name
    /\ github.RepositoryRelease.TagName release = Some name
    /\ github.RepositoryRelease.Name release = Some ("Release " ++ name).
Proof.
  revert o r release. unfold_run. case_run.
  all: intros ? ? ? Hin; same_event Hin.
  all: eexists _, _, _; split; [cbn [In]; tauto|];
    split; [cbn [In]; tauto|]; split; [eassumption|]; repeat split.
Qed.

Lemma release_follows_tag_witness :
  let w := Sample.world [Sample.run42] [Sample.artifact 5 "Build Output" 42]
             (Sample.versionRecord (Bytes.quoted "2.0.0")) in
  exists tag ref name,
    In (CallCreateTag "octo" "mod" tag) (fst (main filepath.unix Sample.flags w))
    /\ In (CallCreateRef "octo" "mod" ref)
         (fst (main filepath.unix Sample.flags w))
    /\ CreateRef w "octo" "mod" ref = None
    /\ github.Tag.Tag tag = Some name
    /\ Some "2.0.0" = Some name
    /\ Some "Release 2.0.0" = Some ("Release " ++ name).
Proof.
  intros w.
  apply (release_follows_tag filepath.unix Sample.flags w "octo" "mod"
           (github.RepositoryRelease.mk None (Some "2.0.0")
              (Some "Release 2.0.0"))).
  vm_compute. repeat (first [left; reflexivity | right]).
Defined.

(** X13: the asset of a run is uploaded to the release the run has created,
    under the filename the locator returned, from the temporary file into
    which the bytes the locator returned were written. *)
Theorem asset_is_the_located_module
  (goos : filepath.GOOS) (flags : Flags) (w : World)
  (o r : string) (id : Z) (name file : string) :
  In (CallUploadReleaseAsset o r id name file) (fst (main goos flags w)) ->
  exists zipData geodeData release created,
    extractGeodeFileFromZip (NewReader w) goos zipData
    = (geodeData, name, None)
    /\ In (CallWriteFile file geodeData) (fst (main goos flags w))
    /\ CreateTemp w "mod-*.geode" = inr file
    /\ In (CallCreateRelease o r release) (fst (main goos flags w))
    /\ CreateRelease w o r release = inr created
    /\ id = github.RepositoryRelease.GetID created.
Proof.
  revert o r id name file. unfold_run. case_run.
  all: intros ? ? ? ? ? Hin; same_event Hin.
  all: eexists _, _, _, _; split; [eassumption|];
    split; [cbn [In]; tauto|]; split; [reflexivity|];
    split; [cbn [In]; tauto|]; split; [eassumption|]; reflexivity.
Qed.

Lemma asset_is_the_located_module_witness :
  let w := Sample.world [Sample.run42] [Sample.artifact 5 "Build Output" 42]
             (Sample.versionRecord (Bytes.quoted "2.0.0")) in
  exists zipData geodeData release created,
    extractGeodeFileFromZip (NewReader w) filepath.unix zipData
    = (geodeData, "mod-final.geode", None)
    /\ In (CallWriteFile "/tmp/mod-*.geode" geodeData)
         (fst (main filepath.unix Sample.flags w))
    /\ CreateTemp w "mod-*.geode" = inr "/tmp/mod-*.geode"
    /\ In (CallCreateRelease "octo" "mod" release)
         (fst (main filepath.unix Sample.flags w))
    /\ CreateRelease w "octo" "mod" release = inr created
    /\ 7%Z = github.RepositoryRelease.GetID created.
Proof.
  intros w.
  apply (asset_is_the_located_module filepath.unix Sample.flags w
           "octo" "mod" 7%Z "mod-final.geode" "/tmp/mod-*.geode").
  vm_compute. repeat (first [left; reflexivity | right]).
Defined.

(** X14: the call [fmt.Println] that reports success is made exactly in
    the runs that end well: a write to standard output that consists of the
    success line and nothing else occurs in a run if and only if the run
    ends well.  This is about the writes, not about the lines of the
    output: the writes that show the filename, the version and the tag
    name begin with other words, but a version that holds a line break can
    put the same line into the output of a run that fails. *)
Theorem success_line_iff_success
  (goos : filepath.GOOS) (flags : Flags) (w : World) :
  In (Stdout successLine) (fst (main goos flags w))
  <-> snd (main goos flags w) = ExitSuccess.
Proof.
  unfold_run. case_run.
  all: split; [intros Hin | intros Hexit]; try discriminate Hexit;
    try reflexivity.
  all: try (cbn [In]; repeat (first [left; reflexivity | right])).
  all: cbn [In] in Hin;
    repeat match type of Hin with
      | _ \/ _ => destruct Hin as [Hin|Hin]
      end;
    try discriminate Hin; try contradiction.
  all: exfalso; injection Hin as Hin; revert Hin; clear.
  all: unfold successLine, newline, Bytes.single.
  all: match goal with
       | |- (?p ++ ?v ++ _) = _ -> False =>
           change p with (String.append p EmptyString); cbn; discriminate
       | _ => idtac
       end.
Qed.

Lemma success_line_iff_success_witness :
  In (Stdout successLine)
    (fst (main filepath.unix Sample.flags
            (Sample.world [Sample.run42] [Sample.artifact 5 "Build Output" 42]
               (Sample.versionRecord (Bytes.quoted "2.0.0"))))).
Proof.
  apply (proj2 (success_line_iff_success filepath.unix Sample.flags
                  (Sample.world [Sample.run42]
                     [Sample.artifact 5 "Build Output" 42]
                     (Sample.versionRecord (Bytes.quoted "2.0.0"))))).
  reflexivity.
Defined.

(** X15: no call goes out, and nothing is printed, unless the owner, the
    repository and the token are all set. *)
Theorem nothing_happens_without_configuration
  (goos : filepath.GOOS) (flags : Flags) (w : World) (e : Event) :
  In e (fst (main goos flags w)) ->
  owner flags <> EmptyString /\ repo flags <> EmptyString
  /\ Getenv w "GITHUB_TOKEN" <> EmptyString.
Proof.
  unfold main, main_.
  destruct (owner flags) as [|c1 o]; [intros []|].
  destruct (repo flags) as [|c2 r]; [intros []|].
  destruct (Getenv w "GITHUB_TOKEN") as [|c3 t]; [intros []|].
  intros _. repeat split; discriminate.
Qed.

Lemma nothing_happens_without_configuration_witness :
  let w := Sample.world [] [] EmptyString in
  owner Sample.flags <> EmptyString /\ repo Sample.flags <> EmptyString
  /\ Getenv w "GITHUB_TOKEN" <> EmptyString.
Proof.
  intros w.
  apply (nothing_happens_without_configuration filepath.unix Sample.flags w
           (CallListWorkflowRunsByFileName "octo" "mod" "multi-platform.yml"
              "completed" "main")).
  vm_compute. left. reflexivity.
Defined.

(* ------------------------------------------------------------------ *)
(** ** The selector: the scan stops at the first match *)

(** X16: the scan of the artifacts stops at the first artifact named
    [Build Output] of the latest run: the artifacts after it are not looked
    at, so they may lack a workflow run. *)
Theorem selector_stops_at_first_match
  (before after : list github.Artifact.t) (a : github.Artifact.t)
  (runID : Z) :
  Forall (fun b => runIDOf b <> None /\ isBuildOutput runID b = false) before ->
  isBuildOutput runID a = true ->
  selectArtifact (before ++ a :: after)%list runID = Done (Some a).
Proof.
  intros Hbefore Ha.
  induction Hbefore as [|b before [Hid Hno] _ IH]; cbn [app selectArtifact].
  - unfold isBuildOutput, runIDOf in Ha.
    destruct (github.Artifact.GetWorkflowRun a) as [run|];
      [|now rewrite andb_false_r in Ha].
    destruct (github.ArtifactWorkflowRun.ID run) as [id|];
      [|now rewrite andb_false_r in Ha].
    now rewrite Ha.
  - unfold isBuildOutput, runIDOf in Hid, Hno.
    destruct (github.Artifact.GetWorkflowRun b) as [run|]; [|congruence].
    destruct (github.ArtifactWorkflowRun.ID run) as [id|]; [|congruence].
    now rewrite Hno.
Qed.

Lemma selector_stops_at_first_match_witness :
  selectArtifact
    [Sample.artifact 1 "logs" 42;
     Sample.artifact 3 "Build Output" 42;
     github.Artifact.mk (Some 9%Z) (Some "orphan") None]
    42
  = Done (Some (Sample.artifact 3 "Build Output" 42)).
Proof.
  apply (selector_stops_at_first_match
           [Sample.artifact 1 "logs" 42]
           [github.Artifact.mk (Some 9%Z) (Some "orphan") None]
           (Sample.artifact 3 "Build Output" 42) 42).
  - repeat constructor. discriminate.
  - reflexivity.
Defined.

Lemma selectArtifact_panics
  (before after : list github.Artifact.t) (a : github.Artifact.t)
  (runID : Z) :
  Forall (fun b => runIDOf b <> None /\ isBuildOutput runID b = false) before ->
  runIDOf a = None ->
  selectArtifact (before ++ a :: after)%list runID
  = Panic "invalid memory address or nil pointer dereference".
Proof.
  intros Hbefore Ha.
  induction Hbefore as [|b before [Hid Hno] _ IH]; cbn [app selectArtifact].
  - unfold runIDOf in Ha.
    destruct (github.Artifact.GetWorkflowRun a) as [run|]; [|reflexivity].
    now rewrite Ha.
  - unfold isBuildOutput, runIDOf in Hid, Hno.
    destruct (github.Artifact.GetWorkflowRun b) as [run|]; [|congruence].
    destruct (github.ArtifactWorkflowRun.ID run) as [id|]; [|congruence].
    now rewrite Hno.
Qed.

(** X17: an artifact without a workflow run, or whose run has no identifier,
    that the scan reaches before any match ends the program in a panic:
    the run has made the two listing calls and nothing else, and neither
    [ArtifactNotFound] nor a selection comes out. *)
Theorem selector_panics_on_artifact_without_run
  (goos : filepath.GOOS) (flags : Flags) (w : World)
  (latestRun : github.WorkflowRun.t) (older : list github.WorkflowRun.t)
  (before after : list github.Artifact.t) (a : github.Artifact.t) :
  Bytes.isEmpty (owner flags) = false ->
  Bytes.isEmpty (repo flags) = false ->
  Bytes.isEmpty (Getenv w "GITHUB_TOKEN") = false ->
  ListWorkflowRunsByFileName w (owner flags) (repo flags)
    (workflowFile flags) "completed" (branch flags)
  = inr (latestRun :: older) ->
  ListArtifacts w (owner flags) (repo flags)
  = inr (before ++ a :: after)%list ->
  Forall (fun b => runIDOf b <> None
                   /\ isBuildOutput (github.WorkflowRun.GetID latestRun) b
                      = false) before ->
  runIDOf a = None ->
  main goos flags w
  = ([CallListWorkflowRunsByFileName (owner flags) (repo flags)
        (workflowFile flags) "completed" (branch flags);
      CallListArtifacts (owner flags) (repo flags)],
     Panicked "invalid memory address or nil pointer dereference").
Proof.
  intros Ho Hr Ht Hruns Harts Hbefore Ha.
  pose proof (selectArtifact_panics before after a _ Hbefore Ha) as Hsel.
  unfold main, main_, selectBuildOutput, Run.call.
  rewrite Ho, Hr, Ht, Hruns, Harts. cbn. now rewrite Hsel.
Qed.

Lemma selector_panics_on_artifact_without_run_witness :
  main filepath.unix Sample.flags
    (Sample.world [Sample.run42]
       [Sample.artifact 1 "logs" 42;
        github.Artifact.mk (Some 9%Z) (Some "orphan") None;
        Sample.artifact 3 "Build Output" 42]
       (Sample.versionRecord (Bytes.quoted "2.0.0")))
  = ([CallListWorkflowRunsByFileName "octo" "mod" "multi-platform.yml"
        "completed" "main";
      CallListArtifacts "octo" "mod"],
     Panicked "invalid memory address or nil pointer dereference").
Proof.
  apply (selector_panics_on_artifact_without_run filepath.unix Sample.flags _
           Sample.run42 [] [Sample.artifact 1 "logs" 42]
           [Sample.artifact 3 "Build Output" 42]
           (github.Artifact.mk (Some 9%Z) (Some "orphan") None));
    try reflexivity.
  repeat constructor. discriminate.
Defined.


(* ------------------------------------------------------------------ *)
(** ** From the text of a version to the version *)

Section VersionText.

Import json.

Lemma versionRecord_shape (v : string) :
  Sample.versionRecord (Bytes.quoted v)
  = recordHead ++ v ++ String Bytes.dquote "}".
Proof.
  unfold Sample.versionRecord, recordHead, Bytes.quoted, Bytes.single.
  cbn [append]. now rewrite append_assoc.
Qed.

Lemma scanBuffer_closing (k : nat) :
  scanBuffer (mkScanner stateInString false [parseObjectValue] None)
    (String Bytes.dquote "}") k
  = complete (S (S k)).
Proof. reflexivity. Qed.

Lemma readValue_versionRecord (v : string) (failure : option error) :
  plain v = true ->
  readValue (io.mkReadCloser (Sample.versionRecord (Bytes.quoted v)) failure)
  = inl (String.length (Sample.versionRecord (Bytes.quoted v))).
Proof.
  intros Hv. unfold readValue. cbn [io.delivered].
  rewrite versionRecord_shape.
  change (scanBuffer reset (recordHead ++ v ++ String Bytes.dquote "}") 0)
    with (scanBuffer (mkScanner stateInString false [parseObjectValue] None)
            (v ++ String Bytes.dquote "}") 12).
  rewrite scanBuffer_plain by easy.
  rewrite scanBuffer_closing.
  rewrite length_append, length_append. cbn [String.length recordHead].
  f_equal. cbn. lia.
Qed.

Lemma unmarshal_versionRecord (v : string) :
  plain v = true ->
  unmarshal (Sample.versionRecord (Bytes.quoted v))
  = Done (mkModJSON v, None).
Proof.
  intros Hv. rewrite versionRecord_shape.
  pose proof (stringTail_plain v "}" Hv) as Htail.
  pose proof (unquoteBytes_plain v Hv) as Hunq.
  remember (v ++ String Bytes.dquote "}") as tail eqn:Et.
  remember (v ++ Bytes.single Bytes.dquote) as body eqn:Eb.
  clear Et Eb Hv.
  unfold unmarshal, recordHead, Bytes.quoted, Bytes.single. cbn [append].
  cbn.
  unfold rescanLiteral at 1. cbn [prev unread moved].
  rewrite Ascii.eqb_refl, Htail.
  cbn [scan savedError target moved setStep step endTop parseState err doEndValue].
  unfold literalStore at 1.
  cbn - [unquoteBytes objectLoop skipSpace scanWhile rescanLiteral valueOfMember].
  rewrite Hunq.
  cbn - [unquoteBytes objectLoop scanWhile rescanLiteral valueOfMember].
  reflexivity.
Qed.

Lemma Decode_versionRecord (v : string) (failure : option error) :
  plain v = true ->
  Decode (io.mkReadCloser (Sample.versionRecord (Bytes.quoted v)) failure)
  = Done (mkModJSON v, None).
Proof.
  intros Hv. unfold Decode. rewrite (readValue_versionRecord v failure Hv).
  cbn [io.delivered]. rewrite upto_length. now apply unmarshal_versionRecord.
Qed.

End VersionText.

(** X18: a metadata entry whose content is the object with the one key
    [version] and a string of printable ASCII bytes other than the double
    quote and the backslash, not empty, makes the reader return exactly
    these bytes and no error; a read error that comes with the last bytes
    of the entry is not looked at. *)
Theorem reader_returns_plain_version
  (NewReader : string -> error + list zip.File) (geodeData : string)
  (files : list zip.File) (f : zip.File) (v : string)
  (failure : option error) :
  NewReader geodeData = inr files ->
  List.find isMetadata files = Some f ->
  zip.Open f
  = inr (io.mkReadCloser (Sample.versionRecord (Bytes.quoted v)) failure) ->
  plain v = true ->
  v <> EmptyString ->
  parseVersionFromGeode NewReader geodeData = Done (v, None).
Proof.
  intros Hzip Hfind Hopen Hv Hne.
  rewrite (parseVersionFromGeode_find _ _ _ _ Hzip Hfind).
  unfold versionOf. rewrite Hopen, (Decode_versionRecord v failure Hv).
  cbn [andThen json.Version]. destruct v; [contradiction | reflexivity].
Qed.

Lemma reader_returns_plain_version_witness :
  parseVersionFromGeode
    (Sample.reader
       [("inner",
         [Sample.dirEntry "docs/";
          Sample.fileEntry "mod.json"
            (Sample.versionRecord (Bytes.quoted "v1.2.3-beta+7"))])])
    "inner"
  = Done ("v1.2.3-beta+7", None).
Proof.
  apply (reader_returns_plain_version _ "inner"
           [Sample.dirEntry "docs/";
            Sample.fileEntry "mod.json"
              (Sample.versionRecord (Bytes.quoted "v1.2.3-beta+7"))]
           (Sample.fileEntry "mod.json"
              (Sample.versionRecord (Bytes.quoted "v1.2.3-beta+7")))
           "v1.2.3-beta+7" None);
    [reflexivity | reflexivity | reflexivity | reflexivity | discriminate].
Defined.

(* ------------------------------------------------------------------ *)
(** ** The locator on archives whose directories are named with a slash *)

Lemma find_filter {A : Type} (p q : A -> bool) (l : list A) :
  List.find q (List.filter p l) = List.find (fun a => p a && q a) l.
Proof.
  induction l as [|a l IH]; [reflexivity|].
  cbn [List.filter List.find].
  destruct (p a); cbn [andb List.find]; [now rewrite IH | exact IH].
Qed.

(** X19: where the name of every directory entry of the artifact archive ends
    in a slash, directory entries play no part in the locator: taking them
    out of the archive leaves its answer as it is. *)
Theorem locator_ignores_slash_named_directories
  (NewReader NewReader' : string -> error + list zip.File)
  (os : filepath.GOOS) (zipData zipData' : string) (files : list zip.File) :
  NewReader zipData = inr files ->
  NewReader' zipData'
  = inr (List.filter (fun f => negb (zip.IsDir f)) files) ->
  (forall f, In f files -> zip.IsDir f = true ->
             Ascii.eqb (lastByte (zip.Name f)) "/" = true) ->
  extractGeodeFileFromZip NewReader' os zipData'
  = extractGeodeFileFromZip NewReader os zipData.
Proof.
  intros Hzip Hzip' Hdirs. unfold extractGeodeFileFromZip.
  rewrite Hzip, Hzip', !extractGeodeFile_find, find_filter.
  rewrite find_module_skipping_directories; [reflexivity|].
  intros f Hin Hdir. specialize (Hdirs f Hin Hdir).
  unfold isModule.
  destruct (strings.HasSuffix (zip.Name f) ".geode") eqn:Hs; [|reflexivity].
  apply module_name_shape in Hs as [_ Hs]. congruence.
Qed.

Lemma locator_ignores_slash_named_directories_witness :
  extractGeodeFileFromZip
    (Sample.reader [("flat", [Sample.fileEntry "build/mod.geode" "inner"])])
    filepath.unix "flat"
  = extractGeodeFileFromZip
      (Sample.reader
         [("outer",
           [Sample.dirEntry "build/";
            Sample.fileEntry "build/mod.geode" "inner"])])
      filepath.unix "outer".
Proof.
  apply (locator_ignores_slash_named_directories _ _ filepath.unix
           "outer" "flat"
           [Sample.dirEntry "build/";
            Sample.fileEntry "build/mod.geode" "inner"]).
  - reflexivity.
  - reflexivity.
  - intros f [<-|[<-|[]]]; [reflexivity | discriminate].
Defined.
